(** * GuideManager: importing web guides into the geo-object store

    A shallow embedding of [isomer/guides/guide_manager.py] (HFOS web
    guides).  The component downloads a KML export, has [ogr2ogr]
    translate it into GeoJSON, and replaces the named layer of the
    object store with the features of the GeoJSON file.

    The Python code is a sequence of effectful statements, so the
    embedding is a state-and-exception monad over an explicit [world]
    (cache files, object store, identifiers handed out, log).  What the
    code obtains from outside the repository (network, external process,
    [json.loads], [std_uuid]) is read from an [env] record. *)

From Stdlib Require Import ZArith Ascii String.
From stdpp Require Import gmap strings list fin_maps pretty.

Set Warnings "-register-all".

Open Scope string_scope.

(** ** Exceptions *)

(** The exception classes that the statements of the module can meet.
    [HTTPError] is a subclass of [URLError], which is a subclass of
    [OSError]; [OSError] below stands for every [OSError] that is not a
    [URLError] (connection reset, time-out while reading, permission
    denied).  [KeyboardInterrupt] derives from [BaseException] only. *)
Inductive exn : Type :=
| URLError (reason : string)
| HTTPError (code : Z)
| OSError (msg : string)
| FileNotFoundError (path : string)
| UnicodeDecodeError
| JSONDecodeError
| KeyError (key : string)
| TypeError (msg : string)
| KeyboardInterrupt.

(** [isinstance(e, (request.URLError, request.HTTPError))] *)
Definition is_URLError (e : exn) : bool :=
  match e with
  | URLError _ | HTTPError _ => true
  | _ => false
  end.

(** [isinstance(e, Exception)] *)
Definition is_Exception (e : exn) : bool :=
  match e with
  | KeyboardInterrupt => false
  | _ => true
  end.

(** ** Values produced by [json.loads] *)

Inductive json : Type :=
| JNull
| JBool (b : bool)
| JInt (n : Z)
| JFloat (repr : string)
| JStr (s : string)
| JArr (items : list json)
| JObj (fields : list (string * json)).

(** Outcome of an expression: a value or a raised exception. *)
Inductive result (A : Type) : Type :=
| Val (a : A)
| Exc (e : exn).
Arguments Val {A} a.
Arguments Exc {A} e.

(** Lookup in an insertion-ordered dict kept as an association list. *)
Fixpoint dict_get {A : Type} (d : list (string * A)) (k : string) : option A :=
  match d with
  | [] => None
  | (k', v) :: d' => if String.eqb k' k then Some v else dict_get d' k
  end.

Definition dict_keys {A : Type} (d : list (string * A)) : list string := d.*1.

(** [d[k]] on a dict: [KeyError] when the key is absent. *)
Definition dict_getitem {A : Type} (d : list (string * A)) (k : string) : result A :=
  match dict_get d k with
  | Some v => Val v
  | None => Exc (KeyError k)
  end.

(** [v[k]] for a string key [k] on a parsed JSON value. *)
Definition py_getitem (v : json) (k : string) : result json :=
  match v with
  | JObj o => dict_getitem o k
  | JArr _ => Exc (TypeError "list indices must be integers or slices, not str")
  | JStr _ => Exc (TypeError "string indices must be integers")
  | _ => Exc (TypeError "object is not subscriptable")
  end.

(** [len(v)] *)
Definition py_len (v : json) : result nat :=
  match v with
  | JArr l => Val (length l)
  | JObj o => Val (length o)
  | JStr s => Val (String.length s)
  | _ => Exc (TypeError "object has no len()")
  end.

Fixpoint string_chars (s : string) : list string :=
  match s with
  | EmptyString => []
  | String c s' => String c EmptyString :: string_chars s'
  end.

(** The items a [for] loop over [v] visits: the elements of a list, the
    keys of a dict, the characters of a string. *)
Definition py_iter (v : json) : result (list json) :=
  match v with
  | JArr l => Val l
  | JObj o => Val (JStr <$> dict_keys o)
  | JStr s => Val (JStr <$> string_chars s)
  | _ => Exc (TypeError "object is not iterable")
  end.

(** ** Paths and text *)

Fixpoint endswith_sep (s : string) : bool :=
  match s with
  | EmptyString => false
  | String c EmptyString => Ascii.eqb c "/"%char
  | String _ s' => endswith_sep s'
  end.

(** [os.path.join(a, b)] of [posixpath]. *)
Definition os_path_join (a b : string) : string :=
  if String.prefix "/" b then b
  else if String.eqb a "" || endswith_sep a then a +:+ b
  else a +:+ "/" +:+ b.

(** Well-formedness of a byte sequence as UTF-8 (RFC 3629), on the byte
    values.  [bytes.decode('utf-8')] raises [UnicodeDecodeError] exactly
    on the sequences this rejects.  Text is kept in its UTF-8 form. *)
Definition in_range (lo hi b : N) : bool := (lo <=? b)%N && (b <=? hi)%N.

Definition cont (b : N) : bool := in_range 128 191 b.

Fixpoint utf8_valid_bytes (fuel : nat) (bs : list N) : bool :=
  match fuel with
  | O => match bs with [] => true | _ => false end
  | S fuel' =>
      match bs with
      | [] => true
      | b0 :: r0 =>
          if (b0 <=? 127)%N then utf8_valid_bytes fuel' r0
          else if in_range 194 223 b0 then
            match r0 with
            | b1 :: r1 => cont b1 && utf8_valid_bytes fuel' r1
            | _ => false
            end
          else if in_range 224 239 b0 then
            match r0 with
            | b1 :: b2 :: r2 =>
                (if (b0 =? 224)%N then in_range 160 191 b1
                 else if (b0 =? 237)%N then in_range 128 159 b1
                 else cont b1)
                && cont b2 && utf8_valid_bytes fuel' r2
            | _ => false
            end
          else if in_range 240 244 b0 then
            match r0 with
            | b1 :: b2 :: b3 :: r3 =>
                (if (b0 =? 240)%N then in_range 144 191 b1
                 else if (b0 =? 244)%N then in_range 128 143 b1
                 else cont b1)
                && cont b2 && cont b3 && utf8_valid_bytes fuel' r3
            | _ => false
            end
          else false
      end
  end.

Fixpoint string_bytes (s : string) : list N :=
  match s with
  | EmptyString => []
  | String c s' => Ascii.N_of_ascii c :: string_bytes s'
  end.

Definition utf8_valid (s : string) : bool :=
  utf8_valid_bytes (String.length s) (string_bytes s).

(** [body.decode('utf-8')] *)
Definition decode_utf8 (body : string) : result string :=
  if utf8_valid body then Val body else Exc UnicodeDecodeError.

(** ** The world the component acts on *)

(** Log levels of [isomer.logger]. *)
Inductive level : Type := verbose | debug | info | warn | error | critical.

Inductive logarg : Type :=
| LStr (s : string)
| LCmd (argv : list string)
| LBool (b : bool)
| LExn (e : exn)
| LType (e : exn)
| LJson (j : json).

(** One call of [self.log(..., lvl=l, exc=b)]. *)
Record logentry : Type := LogEntry {
  le_lvl : level;
  le_args : list logarg;
  le_exc : bool
}.

(** Fields of a [layer] document as the module writes them. *)
Record layer : Type := Layer {
  lyr_uuid : string;
  lyr_name : string;
  lyr_type : string
}.

(** Fields of a [geoobject] document as the module writes them. *)
Record geoobject : Type := GeoObject {
  geo_uuid : string;
  geo_layer : string;
  geo_geojson : json;
  geo_type : string;
  geo_name : string
}.

(** Modelled from the spec: the persistence collaborator
    ([isomer.database.objectmodels], outside this repository).  A
    collection is the sequence of its documents in insertion order; each
    document carries the key [_id] the store gave it when it was
    persisted, and [delete] removes by that key.  Deleting a layer does
    not touch the geo-objects that reference it, and the operations of
    the store do not raise. *)
Record store : Type := Store {
  layers : list (nat * layer);
  geoobjects : list (nat * geoobject);
  next_id : nat
}.

Record world : Type := World {
  w_files : gmap string string;  (* cache files: path to text *)
  w_store : store;
  w_uuids : nat;                 (* identifiers handed out so far *)
  w_log : list logentry
}.

(** What the fetch of a URL meets: [urlopen] raises, [read()] raises, or
    the body arrives. *)
Inductive response : Type :=
| OpenRaises (e : exn)
| ReadRaises (e : exn)
| Body (bytes : string).

(** A started process: its exit status and the files it leaves behind. *)
Record process : Type := Process {
  returncode : Z;
  files_after : gmap string string
}.

(** What lies outside the repository and is only called by it: the
    remote site, a refusal of the file system to write, the external
    process, [json.loads], [std_uuid] and [repr].  As long as one
    environment is fixed, the same request meets the same answer. *)
Record env : Type := Env {
  remote : string -> response;
  open_w_error : string -> option exn;  (* [open(path, 'w')] and the write *)
  failed_write : string -> string -> option string;
                                        (* what a failed write leaves *)
  spawn : list string -> string -> gmap string string -> result process;
  json_loads : string -> result json;
  uuid_at : nat -> string;              (* the n-th value of [std_uuid()] *)
  py_repr : json -> string              (* [repr] of lists, dicts, floats *)
}.

Definition set_files (fs : gmap string string) (w : world) : world :=
  World fs (w_store w) (w_uuids w) (w_log w).

Definition set_store (s : store) (w : world) : world :=
  World (w_files w) s (w_uuids w) (w_log w).

Definition add_log (le : logentry) (w : world) : world :=
  World (w_files w) (w_store w) (w_uuids w) (w_log w ++ [le]).

Definition bump_uuids (w : world) : world :=
  World (w_files w) (w_store w) (S (w_uuids w)) (w_log w).

(** ** Statements: state, exceptions and early return *)

(** How a block of statements inside a function with return type [R]
    ends: it falls through with a value, an exception is on its way up,
    or a [return] statement was executed. *)
Inductive outcome (R A : Type) : Type :=
| Normal (a : A)
| Raised (e : exn)
| Returned (r : R).
Arguments Normal {R A} a.
Arguments Raised {R A} e.
Arguments Returned {R A} r.

Definition M (R A : Type) : Type := world -> world * outcome R A.

Definition ret {R A} (a : A) : M R A := fun w => (w, Normal a).

Definition bind {R A B} (m : M R A) (k : A -> M R B) : M R B :=
  fun w =>
    match m w with
    | (w', Normal a) => k a w'
    | (w', Raised e) => (w', Raised e)
    | (w', Returned r) => (w', Returned r)
    end.

Notation "'let*' x ':=' m 'in' k" := (bind m (fun x => k))
  (at level 10, x name, m at level 100, k at level 200).
Notation "m ';;;' k" := (bind m (fun _ => k))
  (at level 100, k at level 200, right associativity).

Definition raise {R A} (e : exn) : M R A := fun w => (w, Raised e).

(** The statement [return r]. *)
Definition return_ {R A} (r : R) : M R A := fun w => (w, Returned r).

(** An expression evaluated for its value. *)
Definition eval {R A} (r : result A) : M R A :=
  match r with
  | Val a => ret a
  | Exc e => raise e
  end.

(** A call of a function with body [m]: the value of a [return] inside,
    or of the last statement, is the value of the call; an exception
    passes through. *)
Definition call {R R'} (m : M R R) : M R' R :=
  fun w =>
    match m w with
    | (w', Normal r) => (w', Normal r)
    | (w', Raised e) => (w', Raised e)
    | (w', Returned r) => (w', Normal r)
    end.

(** [try: body / except classes as e: handler e] *)
Definition try_except {R A} (body : M R A) (classes : exn -> bool)
    (handler : exn -> M R A) : M R A :=
  fun w =>
    match body w with
    | (w', Raised e) => if classes e then handler e w' else (w', Raised e)
    | r => r
    end.

Definition when {R} (b : bool) (m : M R unit) : M R unit := if b then m else ret tt.

(** [for x in xs: body x] *)
Fixpoint for_each {R A} (xs : list A) (body : A -> M R unit) : M R unit :=
  match xs with
  | [] => ret tt
  | x :: xs' => body x ;;; for_each xs' body
  end.

(** [for x in xs: acc = body x acc], for a loop that grows a local. *)
Fixpoint for_fold {R A S} (xs : list A) (acc : S) (body : A -> S -> M R S) : M R S :=
  match xs with
  | [] => ret acc
  | x :: xs' => let* acc' := body x acc in for_fold xs' acc' body
  end.

(** ** Operations on the world *)

(** [self.log(..., lvl=lvl, exc=exc)] *)
Definition log {R} (args : list logarg) (lvl : level) (exc : bool) : M R unit :=
  fun w => (add_log (LogEntry lvl args exc) w, Normal tt).

(** [os.path.exists(path)] *)
Definition os_path_exists {R} (path : string) : M R bool :=
  fun w => (w, Normal (bool_decide (is_Some (w_files w !! path)))).

(** [with open(path, 'r') as f: f.read()] *)
Definition read_file {R} (path : string) : M R string :=
  fun w =>
    match w_files w !! path with
    | Some txt => (w, Normal txt)
    | None => (w, Raised (FileNotFoundError path))
    end.

(** Modelled from the spec: [findOne(kind, filter)] on layers with the
    filter [{'name': name}]: the first matching document, if any. *)
Definition find_one_layer {R} (name : string) : M R (option (nat * layer)) :=
  fun w => (w, Normal (List.find (fun d => String.eqb (lyr_name d.2) name)
                                 (layers (w_store w)))).

(** Modelled from the spec: [delete(record)] on a layer. *)
Definition delete_layer {R} (d : nat * layer) : M R unit :=
  fun w =>
    let s := w_store w in
    (set_store (Store (filter (fun d' => d'.1 ≠ d.1) (layers s)) (geoobjects s) (next_id s)) w,
     Normal tt).

(** Modelled from the spec: [save(record)] on a layer built in memory:
    it is appended under a new key. *)
Definition save_layer {R} (l : layer) : M R unit :=
  fun w =>
    let s := w_store w in
    (set_store (Store (layers s ++ [(next_id s, l)]) (geoobjects s) (S (next_id s))) w,
     Normal tt).

(** Modelled from the spec: [findMany(kind, filter)] on geo-objects with
    the filter [{'layer': uuid}]: the matches at the time of the call,
    in the order of the collection. *)
Definition find_geoobjects {R} (uuid : string) : M R (list (nat * geoobject)) :=
  fun w => (w, Normal (filter (fun d => geo_layer d.2 = uuid) (geoobjects (w_store w)))).

(** Modelled from the spec: [delete(record)] on a geo-object. *)
Definition delete_geoobject {R} (d : nat * geoobject) : M R unit :=
  fun w =>
    let s := w_store w in
    (set_store (Store (layers s) (filter (fun d' => d'.1 ≠ d.1) (geoobjects s)) (next_id s)) w,
     Normal tt).

(** Keys for [n] new documents, starting at [k]. *)
Fixpoint with_ids {A} (k : nat) (xs : list A) : list (nat * A) :=
  match xs with
  | [] => []
  | x :: xs' => (k, x) :: with_ids (S k) xs'
  end.

(** Modelled from the spec: [bulkCreate(kind, records)] on geo-objects:
    all records are appended, in order, in one call. *)
Definition bulk_create_geoobjects {R} (gs : list geoobject) : M R unit :=
  fun w =>
    let s := w_store w in
    (set_store (Store (layers s) (geoobjects s ++ with_ids (next_id s) gs)
                      (next_id s + length gs)) w,
     Normal tt).

(** ** The component *)

(** The attributes [__init__] sets on the component. *)
Record GuideManager : Type := {
  translate_binary : string;
  cache_path : string;
  guides : list (string * string)
}.

(** The events of the two handlers; [data] is the payload. *)
Record authorized_event : Type := { data : string }.

Section Component.

Context (E : env).

(** [std_uuid()] *)
Definition std_uuid {R} : M R string :=
  fun w => (bump_uuids w, Normal (uuid_at E (w_uuids w))).

(** [request.urlopen(url).read().decode('utf-8')] *)
Definition urlopen_read_decode (url : string) : result string :=
  match remote E url with
  | OpenRaises e => Exc e
  | ReadRaises e => Exc e
  | Body bytes => decode_utf8 bytes
  end.

(** The world after a failed [with open(path, 'w') as f: f.write(text)].
    [open] creates or truncates the file before the write can fail, so
    the file is left with what [failed_write] says: the empty or partial
    text when the write or the close failed, and nothing new ([None])
    when [open] itself failed. *)
Definition unwritten (path text : string) (w : world) : world :=
  match failed_write E path text with
  | Some remains => set_files (<[path := remains]> (w_files w)) w
  | None => w
  end.

(** [with open(path, 'w') as f: f.write(text)] *)
Definition write_file {R} (path text : string) : M R unit :=
  fun w =>
    match open_w_error E path with
    | Some e => (unwritten path text w, Raised e)
    | None => (set_files (<[path := text]> (w_files w)) w, Normal tt)
    end.

(** [Popen(command, cwd=cwd)] *)
Definition Popen {R} (command : list string) (cwd : string) : M R process :=
  fun w => eval (spawn E command cwd (w_files w)) w.

(** [process.wait()] *)
Definition process_wait {R} (p : process) : M R Z :=
  fun w => (set_files (files_after p) w, Normal (returncode p)).

(** ['%s' % v]: [str(v)]. *)
Definition py_str (v : json) : string :=
  match v with
  | JStr s => s
  | JNull => "None"
  | JBool true => "True"
  | JBool false => "False"
  | _ => py_repr E v
  end.

(** [__init__(self, *args)], with [instance] of [isomer.database]. *)
Definition __init__ {R} (instance : string) : M R GuideManager :=
  let self := {|
    translate_binary := "/usr/bin/ogr2ogr";
    cache_path := os_path_join "/var/cache/hfos" instance;
    guides := [("skipperguide_german",
                "http://www.skipperguide.de/extension/GoogleEarthExport.php")]
  |} in
  log [LStr "Started"] info false ;;;
  ret self.

(** [_runcommand(self, command)] *)
Definition _runcommand {R} (self : GuideManager) (command : list string) : M R bool :=
  call (
    log [LStr "Executing command: "; LCmd command] debug false ;;;
    try_except
      (let* process := Popen command (cache_path self) in
       process_wait process ;;;
       ret tt)
      is_Exception
      (fun e =>
         log [LStr "Problem during gdal execution: "; LCmd command; LExn e; LType e]
             error true ;;;
         return_ false) ;;;
    ret true).

(** [_translate(self, input_filename, output_filename)] *)
Definition _translate {R} (self : GuideManager) (input_filename output_filename : string)
    : M R unit :=
  call (
    let command := [translate_binary self; "-f"; "GeoJSON";
                    output_filename; input_filename] in
    let* result := _runcommand self command in
    log [LStr "Result (Translate): "; LBool result] debug false).

(** [item['properties']['Name']] *)
Definition feature_name (item : json) : result json :=
  match py_getitem item "properties" with
  | Val props => py_getitem props "Name"
  | Exc e => Exc e
  end.

(** [_update_guide(self, guide, update=False, clear=True)] *)
Definition _update_guide {R} (self : GuideManager) (guide : string)
    (update clear : bool) : M R unit :=
  call (
    let kml_filename := os_path_join (cache_path self) (guide +:+ ".kml") in
    let geojson_filename := os_path_join (cache_path self) (guide +:+ ".geojson") in

    let* cached := os_path_exists geojson_filename in
    when (negb cached || update) (
      let* data :=
        try_except
          (let* url := eval (dict_getitem (guides self) guide) in
           eval (urlopen_read_decode url))
          is_URLError
          (fun e =>
             log [LStr "Could not get web guide data:"; LExn e; LType e] warn false ;;;
             return_ tt) in
      write_file kml_filename data ;;;
      _translate self kml_filename geojson_filename) ;;;

    let* text := read_file geojson_filename in
    let* json_data := eval (json_loads E text) in

    let* features := eval (py_getitem json_data "features") in
    let* n := eval (py_len features) in
    when (Nat.eqb n 0) (
      log [LStr "No features found!"] warn false ;;;
      return_ tt) ;;;

    let* layer := find_one_layer guide in

    let* layer :=
      match layer with
      | Some l => if clear then delete_layer l ;;; ret None else ret (Some l)
      | None => ret None
      end in

    let* layer_uuid :=
      match layer with
      | None =>
          let* layer_uuid := std_uuid in
          save_layer (Layer layer_uuid guide "geoobjects") ;;;
          ret layer_uuid
      | Some l => ret (lyr_uuid l.2)
      end in

    when clear (
      let* items := find_geoobjects layer_uuid in
      for_each items (fun item =>
        log [LStr "Deleting old guide location"] debug false ;;;
        delete_geoobject item)) ;;;

    let* features := eval (py_getitem json_data "features") in
    let* items := eval (py_iter features) in
    let* locations :=
      for_fold items [] (fun item locations =>
        log [LStr "Adding new guide location:"; LJson item] verbose false ;;;
        let* uuid := std_uuid in
        let* name := eval (feature_name item) in
        let location :=
          GeoObject uuid layer_uuid item "Skipperguide" ("Guide for " +:+ py_str name) in
        ret (locations ++ [location])%list) in

    log [LStr "Bulk inserting guide locations"] debug false ;;;
    bulk_create_geoobjects locations).

(** [_update_guides(self)] *)
Definition _update_guides {R} (self : GuideManager) : M R unit :=
  call (
    for_each (dict_keys (guides self)) (fun guide =>
      _update_guide self guide false true)).

(** The handler of the [update_guide] event. *)
Definition update_guide {R} (self : GuideManager) (event : authorized_event) : M R unit :=
  call (_update_guide self (data event) false true).

(** The handler of the [update_all] event. *)
Definition update_all {R} (self : GuideManager) (event : authorized_event) : M R unit :=
  call (_update_guides self).

End Component.

(** ** The phases of [_update_guide]

    The body of [_update_guide] read as its consecutive blocks, for the
    statements below; [_update_guide_blocks] shows that running the
    blocks one after the other is running the body. *)

Section Blocks.

Context (E : env) (self : GuideManager) (guide : string).

Definition kml_filename : string :=
  os_path_join (cache_path self) (guide +:+ ".kml").

Definition geojson_filename : string :=
  os_path_join (cache_path self) (guide +:+ ".geojson").

(** The command line [_translate] builds for this guide. *)
Definition translate_command : list string :=
  [translate_binary self; "-f"; "GeoJSON"; geojson_filename; kml_filename].

(** The conditional fetch and translation. *)
Definition fetch_block (update : bool) : M unit unit :=
  let* cached := os_path_exists geojson_filename in
  when (negb cached || update) (
    let* data :=
      try_except
        (let* url := eval (dict_getitem (guides self) guide) in
         eval (urlopen_read_decode E url))
        is_URLError
        (fun e =>
           log [LStr "Could not get web guide data:"; LExn e; LType e] warn false ;;;
           return_ tt) in
    write_file E kml_filename data ;;;
    _translate E self kml_filename geojson_filename).

(** Layer replacement, once [json_data] is known to have features. *)
Definition replace_block (clear : bool) : M unit string :=
  let* layer := find_one_layer guide in
  let* layer :=
    match layer with
    | Some l => if clear then delete_layer l ;;; ret None else ret (Some l)
    | None => ret None
    end in
  let* layer_uuid :=
    match layer with
    | None =>
        let* layer_uuid := std_uuid E in
        save_layer (Layer layer_uuid guide "geoobjects") ;;;
        ret layer_uuid
    | Some l => ret (lyr_uuid l.2)
    end in
  when clear (
    let* items := find_geoobjects layer_uuid in
    for_each items (fun item =>
      log [LStr "Deleting old guide location"] debug false ;;;
      delete_geoobject item)) ;;;
  ret layer_uuid.

(** Construction of the records and the bulk insert. *)
Definition insert_block (json_data : json) (layer_uuid : string) : M unit unit :=
  let* features := eval (py_getitem json_data "features") in
  let* items := eval (py_iter features) in
  let* locations :=
    for_fold items [] (fun item locations =>
      log [LStr "Adding new guide location:"; LJson item] verbose false ;;;
      let* uuid := std_uuid E in
      let* name := eval (feature_name item) in
      let location :=
        GeoObject uuid layer_uuid item "Skipperguide" ("Guide for " +:+ py_str E name) in
      ret (locations ++ [location])%list) in
  log [LStr "Bulk inserting guide locations"] debug false ;;;
  bulk_create_geoobjects locations.

(** Everything after the fetch: load, replace, insert. *)
Definition import_block (clear : bool) : M unit unit :=
  let* text := read_file geojson_filename in
  let* json_data := eval (json_loads E text) in
  let* features := eval (py_getitem json_data "features") in
  let* n := eval (py_len features) in
  when (Nat.eqb n 0) (
    log [LStr "No features found!"] warn false ;;;
    return_ tt) ;;;
  let* layer_uuid := replace_block clear in
  insert_block json_data layer_uuid.

(** *** The log entries of the module *)

Definition executing_entry (command : list string) : logentry :=
  LogEntry debug [LStr "Executing command: "; LCmd command] false.

Definition problem_entry (command : list string) (e : exn) : logentry :=
  LogEntry error [LStr "Problem during gdal execution: "; LCmd command; LExn e; LType e] true.

Definition translate_result_entry (result : bool) : logentry :=
  LogEntry debug [LStr "Result (Translate): "; LBool result] false.

Definition fetch_warning (e : exn) : logentry :=
  LogEntry warn [LStr "Could not get web guide data:"; LExn e; LType e] false.

Definition no_features_entry : logentry :=
  LogEntry warn [LStr "No features found!"] false.

Definition deleting_entry : logentry :=
  LogEntry debug [LStr "Deleting old guide location"] false.

Definition adding_entry (item : json) : logentry :=
  LogEntry verbose [LStr "Adding new guide location:"; LJson item] false.

Definition bulk_entry : logentry :=
  LogEntry debug [LStr "Bulk inserting guide locations"] false.

(** *** The blocks as functions of the world *)

(** The world [_translate] leaves behind. *)
Definition translated (input output : string) (w : world) : world :=
  let command := [translate_binary self; "-f"; "GeoJSON"; output; input] in
  match spawn E command (cache_path self) (w_files w) with
  | Val p =>
      add_log (translate_result_entry true)
        (set_files (files_after p) (add_log (executing_entry command) w))
  | Exc e =>
      if is_Exception e then
        add_log (translate_result_entry false)
          (add_log (problem_entry command e) (add_log (executing_entry command) w))
      else add_log (executing_entry command) w
  end.

(** The condition [not os.path.exists(geojson_filename) or update]. *)
Definition fetch_needed (update : bool) (w : world) : bool :=
  negb (bool_decide (is_Some (w_files w !! geojson_filename))) || update.

(** The geo-objects left once each of [items] was deleted by its key. *)
Fixpoint deleted (items : list (nat * geoobject)) (gs : list (nat * geoobject))
    : list (nat * geoobject) :=
  match items with
  | [] => gs
  | item :: items' => deleted items' (filter (fun d' => d'.1 ≠ item.1) gs)
  end.

(** The records the construction loop accumulates for [items], with
    identifiers from the [k]-th on; the exception of the first item
    whose name cannot be looked up, if there is one. *)
Fixpoint built (layer_uuid : string) (k : nat) (items : list json) : result (list geoobject) :=
  match items with
  | [] => Val []
  | item :: items' =>
      match feature_name item with
      | Exc e => Exc e
      | Val name =>
          match built layer_uuid (S k) items' with
          | Exc e => Exc e
          | Val locations =>
              Val (GeoObject (uuid_at E k) layer_uuid item "Skipperguide"
                             ("Guide for " +:+ py_str E name) :: locations)
          end
      end
  end.

(** The world after the construction loop, which stops at the first
    item whose name cannot be looked up. *)
Fixpoint built_world (items : list json) (w : world) : world :=
  match items with
  | [] => w
  | item :: items' =>
      let w1 := bump_uuids (add_log (adding_entry item) w) in
      match feature_name item with
      | Exc _ => w1
      | Val _ => built_world items' w1
      end
  end.

(** [objectmodels['layer'].find_one({'name': guide})] *)
Definition found_layer (w : world) : option (nat * layer) :=
  List.find (fun d => String.eqb (lyr_name d.2) guide) (layers (w_store w)).

(** The world once a new layer was saved next to the layers [ls] and,
    under [clear], the geo-objects referencing the new identifier were
    deleted. *)
Definition with_new_layer (ls : list (nat * layer)) (clear : bool) (w : world) : world :=
  let s := w_store w in
  let layer_uuid := uuid_at E (w_uuids w) in
  let olds := filter (fun d => geo_layer d.2 = layer_uuid) (geoobjects s) in
  World (w_files w)
        (Store (ls ++ [(next_id s, Layer layer_uuid guide "geoobjects")])
               (if clear then deleted olds (geoobjects s) else geoobjects s)
               (S (next_id s)))
        (S (w_uuids w))
        (if clear then w_log w ++ replicate (length olds) deleting_entry else w_log w).

(** The world after [replace_block]. *)
Definition replaced (clear : bool) (w : world) : world :=
  match found_layer w with
  | Some l =>
      if clear
      then with_new_layer (filter (fun d' => d'.1 ≠ l.1) (layers (w_store w))) true w
      else w
  | None => with_new_layer (layers (w_store w)) clear w
  end.

(** The value of [layer_uuid] after [replace_block]. *)
Definition replace_uuid (clear : bool) (w : world) : string :=
  match found_layer w with
  | Some l => if clear then uuid_at E (w_uuids w) else lyr_uuid l.2
  | None => uuid_at E (w_uuids w)
  end.

(** The world after the bulk insert of [locations]. *)
Definition inserted (locations : list geoobject) (w : world) : world :=
  let s := w_store w in
  World (w_files w)
        (Store (layers s) (geoobjects s ++ with_ids (next_id s) locations)
               (next_id s + length locations))
        (w_uuids w)
        (w_log w ++ [bulk_entry]).

(** The world in which an import that was completed ends. *)
Definition completed (items : list json) (locations : list geoobject) (w : world) : world :=
  inserted locations (built_world items (replaced true w)).

(** *** What the statements speak about *)

(** The layers of the store that carry the name [guide]. *)
Definition layers_named (s : store) : list (nat * layer) :=
  filter (fun d => lyr_name d.2 = guide) (layers s).

(** The items of the feature collection in the GeoJSON cache file of
    [guide], when the file is there and parses to one. *)
Definition cached_features (w : world) : option (list json) :=
  match w_files w !! geojson_filename with
  | None => None
  | Some text =>
      match json_loads E text with
      | Exc _ => None
      | Val json_data =>
          match py_getitem json_data "features" with
          | Exc _ => None
          | Val features =>
              match py_iter features with
              | Exc _ => None
              | Val items => Some items
              end
          end
      end
  end.

(** The guides of [names] were updated one after the other with the
    default arguments, each call returning to the loop. *)
Inductive updated_in_turn : list string -> world -> world -> Prop :=
| updated_none w : updated_in_turn [] w w
| updated_next name names w w1 w2 :
    _update_guide (R:=unit) E self name false true w = (w1, Normal tt) ->
    updated_in_turn names w1 w2 ->
    updated_in_turn (name :: names) w w2.

End Blocks.

(** The geo-objects of the store that reference the layer [uuid]. *)
Definition referencing (uuid : string) (s : store) : list (nat * geoobject) :=
  filter (fun d => geo_layer d.2 = uuid) (geoobjects s).

(** What a geo-object carries besides its identifiers. *)
Definition payload (g : geoobject) : json * string * string :=
  (geo_geojson g, geo_type g, geo_name g).

(** The cache file of [guide] holds [text], which parses to [json_data]
    with the value [features] under the key of that name. *)
Definition loaded (E : env) (self : GuideManager) (guide : string) (w : world)
    (text : string) (json_data features : json) : Prop :=
  w_files w !! geojson_filename self guide = Some text
  /\ json_loads E text = Val json_data
  /\ py_getitem json_data "features" = Val features.

(** The store holds exactly one layer named [guide], and as many
    geo-objects reference it as the cached collection has features. *)
Definition holds_guide (E : env) (self : GuideManager) (guide : string) (w : world) : Prop :=
  exists l items,
    layers_named guide (w_store w) = [l]
    /\ cached_features E self guide w = Some items
    /\ length (referencing (lyr_uuid l.2) (w_store w)) = length items.

(** ** A concrete installation

    The component as [__init__] leaves it on the instance [default], and
    small worlds around it, to run the definitions on.  The texts of the
    cache files stand for the documents [json_loads_0] parses them to. *)

Definition self_0 : GuideManager := {|
  translate_binary := "/usr/bin/ogr2ogr";
  cache_path := os_path_join "/var/cache/hfos" "default";
  guides := [("skipperguide_german",
              "http://www.skipperguide.de/extension/GoogleEarthExport.php")]
|}.

Definition feature_Kiel : json :=
  JObj [("type", JStr "Feature");
        ("properties", JObj [("Name", JStr "Kiel")]);
        ("geometry", JObj [("type", JStr "Point");
                           ("coordinates", JArr [JFloat "10.14"; JFloat "54.32"])])].

Definition feature_unnamed : json :=
  JObj [("type", JStr "Feature");
        ("properties", JObj [("description", JStr "anchorage")]);
        ("geometry", JNull)].

Definition json_loads_0 (text : string) : result json :=
  if String.eqb text "<collection: Kiel>" then
    Val (JObj [("type", JStr "FeatureCollection"); ("features", JArr [feature_Kiel])])
  else if String.eqb text "<collection: unnamed>" then
    Val (JObj [("type", JStr "FeatureCollection"); ("features", JArr [feature_unnamed])])
  else if String.eqb text "<collection: empty>" then
    Val (JObj [("type", JStr "FeatureCollection"); ("features", JArr [])])
  else Exc JSONDecodeError.

(** An [ogr2ogr] that writes the collection with Kiel to its output
    path and exits with [status]. *)
Definition spawn_0 (status : Z) (command : list string) (cwd : string)
    (files : gmap string string) : result process :=
  match command with
  | [_; _; _; output; _] =>
      Val (Process status (if (status =? 0)%Z then <[output := "<collection: Kiel>"]> files
                           else files))
  | _ => Exc (OSError "usage")
  end.

Definition uuid_at_0 (n : nat) : string := "uuid-" +:+ pretty n.

(** An environment with the given answer to every fetch and the given
    exit status of the tool. *)
Definition env_0 (answer : response) (write_error : option exn) (status : Z) : env := {|
  remote := fun _ => answer;
  open_w_error := fun _ => write_error;
  failed_write := fun _ _ => None;
  spawn := spawn_0 status;
  json_loads := json_loads_0;
  uuid_at := uuid_at_0;
  py_repr := fun _ => "<repr>"
|}.

(** Everything works. *)
Definition env_ok : env := env_0 (Body "<kml/>") None 0.

(** The host cannot be reached. *)
Definition env_offline : env := env_0 (OpenRaises (URLError "unreachable")) None 0.

(** The connection is reset while the body is read. *)
Definition env_reset : env := env_0 (ReadRaises (OSError "connection reset")) None 0.

(** The body is no UTF-8: it is the single byte 255. *)
Definition env_garbled : env :=
  env_0 (Body (String (ascii_of_nat 255) EmptyString)) None 0.

(** The cache directory cannot be written. *)
Definition env_read_only : env :=
  env_0 (Body "<kml/>") (Some (OSError "read-only file system")) 0.

(** The tool exits with status 1 and writes nothing. *)
Definition env_tool_fails : env := env_0 (Body "<kml/>") None 1.

Definition empty_store : store := Store [] [] 0.

(** Nothing cached, nothing stored. *)
Definition world_fresh : world := World ∅ empty_store 0 [].

(** A cache holding [text] as the GeoJSON file of [guide]. *)
Definition cache_of (guide text : string) : gmap string string :=
  {[ geojson_filename self_0 guide := text ]}.

(** The store after one import of the collection with Kiel. *)
Definition store_Kiel : store :=
  Store [(0, Layer "uuid-0" "skipperguide_german" "geoobjects")]
        [(1, GeoObject "uuid-1" "uuid-0" feature_Kiel "Skipperguide" "Guide for Kiel")]
        2.

(** The world after that import, log aside. *)
Definition world_Kiel : world :=
  World (cache_of "skipperguide_german" "<collection: Kiel>") store_Kiel 2 [].

(** The cached collection has a feature without [Name]. *)
Definition world_unnamed : world :=
  World (cache_of "skipperguide_german" "<collection: unnamed>") empty_store 0 [].

(** The cached collection has no features. *)
Definition world_empty_collection : world :=
  World (cache_of "skipperguide_german" "<collection: empty>") store_Kiel 2 [].

(** Two layers carry the name of the guide. *)
Definition world_two_layers : world :=
  World (cache_of "skipperguide_german" "<collection: Kiel>")
        (Store [(0, Layer "uuid-a" "skipperguide_german" "geoobjects");
                (1, Layer "uuid-b" "skipperguide_german" "geoobjects")] [] 2)
        0 [].

(** A cache file for a name the registry does not know. *)
Definition world_harbours : world :=
  World (cache_of "harbours" "<collection: Kiel>") empty_store 0 [].

(** ** Further notions and worlds *)

(** The exception of the load step on the text of a cache file: of
    [json.loads], of the lookup of [features], or of [len]. *)
Definition load_error (E : env) (text : string) : option exn :=
  match json_loads E text with
  | Exc e => Some e
  | Val json_data =>
      match py_getitem json_data "features" with
      | Exc e => Some e
      | Val features =>
          match py_len features with
          | Exc e => Some e
          | Val _ => None
          end
      end
  end.

(** The fetch of [url] ends in an exception the fetch step handles. *)
Definition fetch_unavailable (E : env) (url : string) : bool :=
  match urlopen_read_decode E url with
  | Exc e => is_URLError e
  | Val _ => false
  end.

(** The last character of a string. *)
Fixpoint last_ascii (s : string) : option ascii :=
  match s with
  | EmptyString => None
  | String c EmptyString => Some c
  | String _ s' => last_ascii s'
  end.

(** The disk is full: the KML file is created, and the write fails
    leaving it empty. *)
Definition env_disk_full : env := {|
  remote := fun _ => Body "<kml/>";
  open_w_error := fun _ => Some (OSError "No space left on device");
  failed_write := fun _ _ => Some "";
  spawn := spawn_0 0;
  json_loads := json_loads_0;
  uuid_at := uuid_at_0;
  py_repr := fun _ => "<repr>"
|}.

(** The component with another registry. *)
Definition with_guides (self : GuideManager) (registry : list (string * string))
    : GuideManager :=
  {| translate_binary := translate_binary self;
     cache_path := cache_path self;
     guides := registry |}.

(** The executable is not installed. *)
Definition env_no_tool : env := {|
  remote := fun _ => Body "<kml/>";
  open_w_error := fun _ => None;
  failed_write := fun _ _ => None;
  spawn := fun _ _ _ => Exc (FileNotFoundError "/usr/bin/ogr2ogr");
  json_loads := json_loads_0;
  uuid_at := uuid_at_0;
  py_repr := fun _ => "<repr>"
|}.

(** A parser that also knows a document whose [features] are an object
    keyed by name, and one without [features]. *)
Definition json_loads_1 (text : string) : result json :=
  if String.eqb text "<collection: keyed>" then
    Val (JObj [("type", JStr "FeatureCollection");
               ("features", JObj [("Kiel", feature_Kiel)])])
  else if String.eqb text "<feature: Kiel>" then Val feature_Kiel
  else json_loads_0 text.

Definition env_keyed : env := {|
  remote := fun _ => Body "<kml/>";
  open_w_error := fun _ => None;
  failed_write := fun _ _ => None;
  spawn := spawn_0 0;
  json_loads := json_loads_1;
  uuid_at := uuid_at_0;
  py_repr := fun _ => "<repr>"
|}.

(** The cache file is no JSON. *)
Definition world_garbage : world :=
  World (cache_of "skipperguide_german" "<html>Service unavailable</html>") store_Kiel 2 [].

(** The cached document is a single feature, not a collection. *)
Definition world_single_feature : world :=
  World (cache_of "skipperguide_german" "<feature: Kiel>") store_Kiel 2 [].

(** The [features] of the cached document are an object. *)
Definition world_keyed : world :=
  World (cache_of "skipperguide_german" "<collection: keyed>") store_Kiel 2 [].

(** The store also holds the layer of another guide, with a geo-object. *)
Definition world_two_guides : world :=
  World (cache_of "skipperguide_german" "<collection: Kiel>")
        (Store [(0, Layer "uuid-0" "skipperguide_german" "geoobjects");
                (1, Layer "uuid-h" "harbours" "geoobjects")]
               [(2, GeoObject "uuid-1" "uuid-0" feature_Kiel "Skipperguide" "Guide for Kiel");
                (3, GeoObject "uuid-2" "uuid-h" feature_Kiel "Skipperguide" "Guide for Kiel")]
               4)
        3 [].

(** * Properties *)

(** ** The library functions on small inputs *)

Example os_path_join_relative :
  os_path_join "/var/cache/hfos" "default" = "/var/cache/hfos/default".
Proof. reflexivity. Qed.

Example os_path_join_after_separator :
  os_path_join "/var/cache/" "default" = "/var/cache/default".
Proof. reflexivity. Qed.

Example os_path_join_absolute :
  os_path_join "/var/cache/hfos/default" "/tmp/guide.kml" = "/tmp/guide.kml".
Proof. reflexivity. Qed.

Example utf8_valid_ascii : utf8_valid "<kml/>" = true.
Proof. reflexivity. Qed.

Example utf8_valid_two_bytes :
  utf8_valid (String (ascii_of_nat 195) (String (ascii_of_nat 182) "ln")) = true.
Proof. reflexivity. Qed.

Example utf8_valid_truncated :
  utf8_valid (String (ascii_of_nat 195) EmptyString) = false.
Proof. reflexivity. Qed.

Example utf8_valid_overlong :
  utf8_valid (String (ascii_of_nat 192) (String (ascii_of_nat 128) EmptyString)) = false.
Proof. reflexivity. Qed.

Example utf8_valid_surrogate :
  utf8_valid (String (ascii_of_nat 237)
                (String (ascii_of_nat 160) (String (ascii_of_nat 128) EmptyString))) = false.
Proof. reflexivity. Qed.

Example py_getitem_on_string :
  feature_name (JStr "x") = Exc (TypeError "string indices must be integers").
Proof. reflexivity. Qed.

(** ** Equations of the statement monad, pointwise in the world *)

Lemma bind_assoc {R A B C} (m : M R A) (f : A -> M R B) (g : B -> M R C) w :
  bind (bind m f) g w = bind m (fun x => bind (f x) g) w.
Proof. unfold bind. destruct (m w) as [w1 [a|e|r]]; reflexivity. Qed.

Lemma bind_ext {R A B} (m : M R A) (f g : A -> M R B) w :
  (forall x w', f x w' = g x w') -> bind m f w = bind m g w.
Proof. intros H. unfold bind. destruct (m w) as [w1 [a|e|r]]; auto. Qed.

Lemma call_ext {R R'} (m m' : M R R) w :
  m w = m' w -> call (R':=R') m w = call m' w.
Proof. intros H. unfold call. rewrite H. reflexivity. Qed.

Ltac monad_eq :=
  repeat first
    [ reflexivity
    | rewrite bind_assoc
    | apply bind_ext; intros
    | match goal with
      | |- context [match ?x with Some _ => _ | None => _ end] => destruct x
      | |- context [if ?b then _ else _] => destruct b
      end ].

Lemma _update_guide_blocks {R} E self guide update clear w :
  _update_guide (R:=R) E self guide update clear w
  = call (fetch_block E self guide update ;;; import_block E self guide clear) w.
Proof.
  unfold _update_guide, fetch_block, import_block, replace_block, insert_block.
  apply call_ext. monad_eq.
Qed.

Lemma for_each_app {R A} (xs ys : list A) (body : A -> M R unit) w :
  for_each (xs ++ ys) body w = (for_each xs body ;;; for_each ys body) w.
Proof.
  revert w. induction xs as [|x xs IH]; intros w; simpl; [reflexivity|].
  rewrite bind_assoc. apply bind_ext. intros _ w'. apply IH.
Qed.

(** ** The external tool *)

Section Translate.

Context (E : env) (self : GuideManager).

(** The process could be started: whatever its exit status, the command
    counts as run. *)
Lemma _runcommand_started {R} command w p :
  spawn E command (cache_path self) (w_files w) = Val p ->
  _runcommand (R:=R) E self command w
  = (set_files (files_after p) (add_log (executing_entry command) w), Normal true).
Proof.
  intros Hs. unfold _runcommand, call, bind, try_except, Popen, log; simpl.
  rewrite Hs. reflexivity.
Qed.

(** The process could not be started: the exception is logged and
    [False] is returned. *)
Lemma _runcommand_spawn_error {R} command w e :
  spawn E command (cache_path self) (w_files w) = Exc e ->
  is_Exception e = true ->
  _runcommand (R:=R) E self command w
  = (add_log (problem_entry command e) (add_log (executing_entry command) w), Normal false).
Proof.
  intros Hs He. unfold _runcommand, call, bind, try_except, Popen, log; simpl.
  rewrite Hs; simpl. rewrite He. reflexivity.
Qed.

Lemma _runcommand_interrupted {R} command w e :
  spawn E command (cache_path self) (w_files w) = Exc e ->
  is_Exception e = false ->
  _runcommand (R:=R) E self command w
  = (add_log (executing_entry command) w, Raised e).
Proof.
  intros Hs He. unfold _runcommand, call, bind, try_except, Popen, log; simpl.
  rewrite Hs; simpl. rewrite He. reflexivity.
Qed.

Lemma _translate_run {R} input output w :
  _translate (R:=R) E self input output w
  = (translated E self input output w,
     match spawn E [translate_binary self; "-f"; "GeoJSON"; output; input]
                 (cache_path self) (w_files w) with
     | Exc e => if is_Exception e then Normal tt else Raised e
     | Val _ => Normal tt
     end).
Proof.
  unfold _translate, translated, call at 1, bind at 1.
  destruct (spawn E _ _ _) as [p|e] eqn:Hs.
  - rewrite (_runcommand_started _ _ _ Hs). reflexivity.
  - destruct (is_Exception e) eqn:He.
    + rewrite (_runcommand_spawn_error _ _ _ Hs He). reflexivity.
    + rewrite (_runcommand_interrupted _ _ _ Hs He). reflexivity.
Qed.

Lemma translated_store input output w :
  w_store (translated E self input output w) = w_store w
  /\ w_uuids (translated E self input output w) = w_uuids w.
Proof.
  unfold translated. destruct (spawn E _ _ _) as [p|e]; [|destruct (is_Exception e)];
    split; reflexivity.
Qed.

End Translate.

(** ** The fetch block, case by case *)

Section Fetch.

Context (E : env) (self : GuideManager) (guide : string).

Abbreviation kml := (kml_filename self guide).
Abbreviation geojson := (geojson_filename self guide).
Abbreviation needed := (fetch_needed self guide).

Lemma fetch_needed_true update w :
  needed update w = true <-> w_files w !! geojson = None \/ update = true.
Proof.
  unfold fetch_needed. rewrite orb_true_iff, negb_true_iff, bool_decide_eq_false.
  rewrite <- eq_None_not_Some. reflexivity.
Qed.

Lemma fetch_needed_false update w :
  needed update w = false <-> is_Some (w_files w !! geojson) /\ update = false.
Proof.
  unfold fetch_needed. rewrite orb_false_iff, negb_false_iff, bool_decide_eq_true.
  reflexivity.
Qed.

Lemma fetch_block_skipped update w :
  needed update w = false ->
  fetch_block E self guide update w = (w, Normal tt).
Proof.
  intros H. unfold fetch_block, bind, os_path_exists.
  fold (needed update w). rewrite H. reflexivity.
Qed.

Lemma fetch_block_unknown update w :
  needed update w = true ->
  dict_get (guides self) guide = None ->
  fetch_block E self guide update w = (w, Raised (KeyError guide)).
Proof.
  intros H Hg. unfold fetch_block, bind at 1, os_path_exists.
  fold (needed update w). rewrite H.
  unfold when, bind, try_except, dict_getitem. rewrite Hg. reflexivity.
Qed.

Lemma fetch_block_fetch_error update w url e :
  needed update w = true ->
  dict_get (guides self) guide = Some url ->
  urlopen_read_decode E url = Exc e ->
  fetch_block E self guide update w
  = if is_URLError e then (add_log (fetch_warning e) w, Returned tt)
    else (w, Raised e).
Proof.
  intros H Hg Hu. unfold fetch_block, bind at 1, os_path_exists.
  fold (needed update w). rewrite H.
  unfold when, bind, try_except, dict_getitem. rewrite Hg; simpl. rewrite Hu; simpl.
  destruct (is_URLError e); reflexivity.
Qed.

Lemma fetch_block_write_error update w url data e :
  needed update w = true ->
  dict_get (guides self) guide = Some url ->
  urlopen_read_decode E url = Val data ->
  open_w_error E kml = Some e ->
  fetch_block E self guide update w = (unwritten E kml data w, Raised e).
Proof.
  intros H Hg Hu Hw. unfold fetch_block, bind at 1, os_path_exists.
  fold (needed update w). rewrite H.
  unfold when, bind, try_except, dict_getitem, write_file. rewrite Hg; simpl.
  rewrite Hu; simpl. fold kml. rewrite Hw. reflexivity.
Qed.

Lemma fetch_block_translate update w url data :
  needed update w = true ->
  dict_get (guides self) guide = Some url ->
  urlopen_read_decode E url = Val data ->
  open_w_error E kml = None ->
  fetch_block E self guide update w
  = _translate E self kml geojson (set_files (<[kml := data]> (w_files w)) w).
Proof.
  intros H Hg Hu Hw. unfold fetch_block, bind at 1, os_path_exists.
  fold (needed update w). rewrite H.
  unfold when, bind, try_except, dict_getitem, write_file. rewrite Hg; simpl.
  rewrite Hu; simpl. fold kml. rewrite Hw. reflexivity.
Qed.

(** The fetch block never touches the store or the identifier supply. *)
Lemma fetch_block_store update w :
  w_store (fetch_block E self guide update w).1 = w_store w
  /\ w_uuids (fetch_block E self guide update w).1 = w_uuids w.
Proof.
  destruct (needed update w) eqn:H.
  2: { rewrite fetch_block_skipped by done. done. }
  destruct (dict_get (guides self) guide) as [url|] eqn:Hg.
  2: { rewrite fetch_block_unknown by done. done. }
  destruct (urlopen_read_decode E url) as [data|e] eqn:Hu.
  2: { rewrite (fetch_block_fetch_error _ _ _ _ H Hg Hu). destruct (is_URLError e); done. }
  destruct (open_w_error E kml) as [e|] eqn:Hw.
  { rewrite (fetch_block_write_error _ _ _ _ _ H Hg Hu Hw). cbn [fst].
    unfold unwritten. by destruct (failed_write E kml data). }
  rewrite (fetch_block_translate _ _ _ _ H Hg Hu Hw), _translate_run. simpl.
  destruct (translated_store E self kml geojson (set_files (<[kml:=data]> (w_files w)) w))
    as [-> ->]. done.
Qed.

(** The call, from the two blocks. *)
Lemma _update_guide_run {R} update clear w :
  _update_guide (R:=R) E self guide update clear w
  = match fetch_block E self guide update w with
    | (w1, Normal _) =>
        match import_block E self guide clear w1 with
        | (w2, Raised e) => (w2, Raised e)
        | (w2, _) => (w2, Normal tt)
        end
    | (w1, Raised e) => (w1, Raised e)
    | (w1, Returned _) => (w1, Normal tt)
    end.
Proof.
  rewrite _update_guide_blocks. unfold call, bind.
  destruct (fetch_block E self guide update w) as [w1 [[]|e|[]]]; try reflexivity.
  destruct (import_block E self guide clear w1) as [w2 [[]|e|[]]]; reflexivity.
Qed.

End Fetch.

(** ** The loops *)

Section Loops.

Context (E : env).

Lemma deleted_subset items : forall gs d, d ∈ deleted items gs -> d ∈ gs.
Proof.
  induction items as [|item items IH]; intros gs d Hd; simpl in Hd; [done|].
  apply IH in Hd. apply list_elem_of_filter in Hd. tauto.
Qed.

Lemma deleted_keys items : forall gs d item,
  d ∈ deleted items gs -> item ∈ items -> d.1 ≠ item.1.
Proof.
  induction items as [|i items IH]; intros gs d item Hd Hi; simpl in Hd.
  - inversion Hi.
  - apply elem_of_cons in Hi as [->|Hi].
    + apply deleted_subset, list_elem_of_filter in Hd. tauto.
    + eapply IH; eauto.
Qed.

(** After the loop over [find({'layer': uuid})], no geo-object of the
    collection references [uuid]. *)
Lemma deleted_found uuid gs d :
  d ∈ deleted (filter (fun d => geo_layer d.2 = uuid) gs) gs -> geo_layer d.2 ≠ uuid.
Proof.
  intros Hd Hu.
  assert (d ∈ filter (fun d => geo_layer d.2 = uuid) gs) as Hin.
  { apply list_elem_of_filter. split; [done|]. by eapply deleted_subset. }
  by eapply deleted_keys.
Qed.

Lemma delete_loop_run {R} (body : nat * geoobject -> M R unit) items w :
  (forall item w',
     body item w'
     = (log [LStr "Deleting old guide location"] debug false ;;; delete_geoobject item) w') ->
  for_each items body w
  = (World (w_files w)
           (Store (layers (w_store w)) (deleted items (geoobjects (w_store w)))
                  (next_id (w_store w)))
           (w_uuids w)
           (w_log w ++ replicate (length items) deleting_entry),
     Normal tt).
Proof.
  intros Hbody. revert w.
  induction items as [|item items IH]; intros [fs [ls gs k] u lg]; simpl.
  - unfold ret. by rewrite app_nil_r.
  - unfold bind at 1. rewrite Hbody. unfold bind at 1.
    unfold log, delete_geoobject, set_store, add_log.
    simpl. rewrite IH. simpl. by rewrite <- app_assoc.
Qed.

Lemma build_loop_run {R} layer_uuid items : forall acc w,
  for_fold (R:=R) items acc (fun item locations =>
    log [LStr "Adding new guide location:"; LJson item] verbose false ;;;
    let* uuid := std_uuid E in
    let* name := eval (feature_name item) in
    let location :=
      GeoObject uuid layer_uuid item "Skipperguide" ("Guide for " +:+ py_str E name) in
    ret (locations ++ [location])%list) w
  = (built_world items w,
     match built E layer_uuid (w_uuids w) items with
     | Val locations => Normal (acc ++ locations)%list
     | Exc e => Raised e
     end).
Proof.
  induction items as [|item items IH]; intros acc w; simpl.
  - unfold ret. by rewrite app_nil_r.
  - unfold bind at 1. unfold bind at 1. unfold log at 1. unfold bind at 1.
    unfold std_uuid at 1. unfold bind at 1.
    destruct (feature_name item) as [name|e]; simpl; [|done].
    rewrite IH. simpl.
    destruct (built _ _ _ items) as [locs|e]; [|done].
    by rewrite <- app_assoc.
Qed.

Lemma built_world_store items : forall w,
  w_store (built_world items w) = w_store w
  /\ w_files (built_world items w) = w_files w.
Proof.
  induction items as [|item items IH]; intros w; simpl; [done|].
  destruct (feature_name item); [|done].
  destruct (IH (bump_uuids (add_log (adding_entry item) w))) as [-> ->]. done.
Qed.

Lemma built_length layer_uuid items : forall k locations,
  built E layer_uuid k items = Val locations -> length locations = length items.
Proof.
  induction items as [|item items IH]; intros k locs H; simpl in H.
  - by inversion H.
  - destruct (feature_name item); [|done].
    destruct (built _ _ _ items) as [l|] eqn:Hb; [|done].
    inversion H; subst. simpl. f_equal. by eapply IH.
Qed.

Lemma built_layer layer_uuid items : forall k locations,
  built E layer_uuid k items = Val locations ->
  Forall (fun g => geo_layer g = layer_uuid) locations.
Proof.
  induction items as [|item items IH]; intros k locs H; simpl in H.
  - inversion H. constructor.
  - destruct (feature_name item); [|done].
    destruct (built _ _ _ items) as [l|] eqn:Hb; [|done].
    inversion H; subst. constructor; [done|]. by eapply IH.
Qed.

End Loops.

(** ** The import block, as a function of the world *)

Section Importing.

Context (E : env) (self : GuideManager) (guide : string).

Abbreviation geojson := (geojson_filename self guide).

Lemma replace_block_run clear w :
  replace_block E guide clear w
  = (replaced E guide clear w, Normal (replace_uuid E guide clear w)).
Proof.
  unfold replace_block, replaced, replace_uuid, bind at 1, find_one_layer.
  fold (found_layer guide w).
  destruct w as [fs [ls gs k] u lg].
  destruct (found_layer _ _) as [l|]; destruct clear; unfold bind; simpl;
    rewrite ?delete_loop_run by reflexivity; reflexivity.
Qed.

Lemma insert_block_run json_data layer_uuid features items w :
  py_getitem json_data "features" = Val features ->
  py_iter features = Val items ->
  insert_block E json_data layer_uuid w
  = match built E layer_uuid (w_uuids w) items with
    | Val locations => (inserted locations (built_world items w), Normal tt)
    | Exc e => (built_world items w, Raised e)
    end.
Proof.
  intros Hf Hi. unfold insert_block, bind at 1. rewrite Hf; simpl.
  unfold bind at 1. rewrite Hi; simpl.
  unfold bind at 1. rewrite build_loop_run.
  destruct (built _ _ _ _) as [locs|e]; reflexivity.
Qed.

(** What [len] accepts, a [for] loop accepts, with as many items. *)
Lemma py_len_iter features n :
  py_len features = Val n ->
  exists items, py_iter features = Val items /\ length items = n.
Proof.
  destruct features as [| | | |s|l|o]; simpl; intros H; inversion H; subst;
    eexists; (split; [reflexivity|]).
  - rewrite length_fmap. clear H. induction s as [|c s IH]; simpl; [done|]. by f_equal.
  - done.
  - unfold dict_keys. by rewrite !length_fmap.
Qed.

(** The load step and what follows it. *)
Lemma import_block_run clear w :
  import_block E self guide clear w
  = match w_files w !! geojson with
    | None => (w, Raised (FileNotFoundError geojson))
    | Some text =>
        match json_loads E text with
        | Exc e => (w, Raised e)
        | Val json_data =>
            match py_getitem json_data "features" with
            | Exc e => (w, Raised e)
            | Val features =>
                match py_len features with
                | Exc e => (w, Raised e)
                | Val 0 => (add_log no_features_entry w, Returned tt)
                | Val (S _) =>
                    insert_block E json_data (replace_uuid E guide clear w)
                                 (replaced E guide clear w)
                end
            end
        end
    end.
Proof.
  unfold import_block, bind at 1, read_file. fold geojson.
  destruct (w_files w !! geojson) as [text|]; [|done].
  unfold bind at 1. destruct (json_loads E text) as [jd|e]; [|done]. simpl.
  unfold bind at 1. destruct (py_getitem jd "features") as [fs|e] eqn:Hf; [|done]. simpl.
  unfold bind at 1. destruct (py_len fs) as [[|n]|e]; [| |done]; simpl.
  - reflexivity.
  - unfold bind at 1. simpl. unfold bind at 1. rewrite replace_block_run. reflexivity.
Qed.

End Importing.

(** * The statements about the component *)

(** ** Failures of the fetch *)

(** C6, as the code has it: when the fetch of a guide's URL is
    attempted and fails with [URLError] or [HTTPError], [_update_guide]
    logs one warning and returns without raising; the store (and the
    cache) are as before the call. *)
Theorem fetch_failure_skips_update {R} E self guide update clear w url e :
  w_files w !! geojson_filename self guide = None \/ update = true ->
  dict_get (guides self) guide = Some url ->
  urlopen_read_decode E url = Exc e ->
  is_URLError e = true ->
  _update_guide (R:=R) E self guide update clear w
  = (add_log (fetch_warning e) w, Normal tt)
  /\ le_lvl (fetch_warning e) = warn
  /\ w_store (add_log (fetch_warning e) w) = w_store w
  /\ w_files (add_log (fetch_warning e) w) = w_files w.
Proof.
  intros Hn Hg Hu He. split; [|done].
  apply fetch_needed_true in Hn.
  rewrite _update_guide_run, (fetch_block_fetch_error _ _ _ _ _ _ _ Hn Hg Hu), He.
  reflexivity.
Qed.

Lemma fetch_failure_skips_update_witness :
  _update_guide (R:=unit) env_offline self_0 "skipperguide_german" false true world_fresh
  = (add_log (fetch_warning (URLError "unreachable")) world_fresh, Normal tt)
  /\ le_lvl (fetch_warning (URLError "unreachable")) = warn
  /\ w_store (add_log (fetch_warning (URLError "unreachable")) world_fresh)
     = w_store world_fresh
  /\ w_files (add_log (fetch_warning (URLError "unreachable")) world_fresh)
     = w_files world_fresh.
Proof.
  apply (fetch_failure_skips_update env_offline self_0 "skipperguide_german" false true
           world_fresh "http://www.skipperguide.de/extension/GoogleEarthExport.php"
           (URLError "unreachable")).
  - left. reflexivity.
  - reflexivity.
  - reflexivity.
  - reflexivity.
Defined.

(** C6 as stated fails for the network errors that are no [URLError]:
    a connection that is reset while the body is read raises an
    [OSError] that leaves [_update_guide]; nothing is logged. *)
Lemma fetch_network_error_propagates :
  let run := _update_guide (R:=unit) env_reset self_0 "skipperguide_german" false true
                           world_fresh in
  remote env_reset "http://www.skipperguide.de/extension/GoogleEarthExport.php"
  = ReadRaises (OSError "connection reset")
  /\ run.2 = Raised (OSError "connection reset")
  /\ w_log run.1 = []
  /\ ~ (exists w', run = (w', Normal tt)).
Proof.
  split; [reflexivity|]. split; [reflexivity|]. split; [reflexivity|].
  intros [w' H]. apply (f_equal snd) in H. vm_compute in H. discriminate H.
Qed.

(** C10: in the fetch step only [URLError] and [HTTPError] are handled
    (the statement above).  An exception of another class raised by
    [urlopen], by reading the body or by decoding it leaves
    [_update_guide] with the world untouched; an exception raised while
    the KML file is written leaves it too, with only the KML file as
    the failed write left it.  The store is as before in both cases,
    and when the loop of [_update_guides] reaches the guide, the
    exception leaves [_update_guides] as well. *)
Theorem fetch_step_contains_only_URLError {R} E self guide update clear w url e :
  w_files w !! geojson_filename self guide = None \/ update = true ->
  dict_get (guides self) guide = Some url ->
  (urlopen_read_decode E url = Exc e /\ is_URLError e = false)
  \/ (exists data, urlopen_read_decode E url = Val data
                   /\ open_w_error E (kml_filename self guide) = Some e) ->
  let w' := match urlopen_read_decode E url with
            | Val data => unwritten E (kml_filename self guide) data w
            | Exc _ => w
            end in
  _update_guide (R:=R) E self guide update clear w = (w', Raised e)
  /\ w_store w' = w_store w
  /\ (forall before after w0,
        update = false ->
        dict_keys (guides self) = (before ++ guide :: after)%list ->
        updated_in_turn E self before w0 w ->
        _update_guides (R:=R) E self w0 = (w', Raised e)).
Proof.
  intros Hn Hg Hcase w'. apply fetch_needed_true in Hn.
  assert (forall R' c, _update_guide (R:=R') E self guide update c w = (w', Raised e)) as Hrun.
  { intros R' c. rewrite _update_guide_run. subst w'.
    destruct Hcase as [[Hu He]|[data [Hu Hw]]].
    - rewrite (fetch_block_fetch_error _ _ _ _ _ _ _ Hn Hg Hu), He, Hu. reflexivity.
    - rewrite (fetch_block_write_error _ _ _ _ _ _ _ _ Hn Hg Hu Hw), Hu. reflexivity. }
  split; [apply Hrun|]. split.
  { subst w'. destruct (urlopen_read_decode E url) as [data|]; [|done].
    unfold unwritten. by destruct (failed_write E _ data). }
  intros before after w0 -> Hkeys Hbefore.
  unfold _update_guides, call. rewrite Hkeys. clear Hkeys.
  induction Hbefore as [w|name names w0 w1 w2 Hname _ IH]; simpl.
  - unfold bind. rewrite Hrun. reflexivity.
  - unfold bind at 1. rewrite Hname. apply IH; assumption.
Qed.

Lemma fetch_step_contains_only_URLError_witness :
  _update_guide (R:=unit) env_reset self_0 "skipperguide_german" false true world_fresh
  = (world_fresh, Raised (OSError "connection reset"))
  /\ w_store world_fresh = w_store world_fresh
  /\ _update_guides (R:=unit) env_reset self_0 world_fresh
     = (world_fresh, Raised (OSError "connection reset")).
Proof.
  destruct (fetch_step_contains_only_URLError (R:=unit) env_reset self_0
              "skipperguide_german" false true world_fresh
              "http://www.skipperguide.de/extension/GoogleEarthExport.php"
              (OSError "connection reset")) as (Hone & Hstore & Hall).
  - left. reflexivity.
  - reflexivity.
  - left. split; reflexivity.
  - split; [exact Hone|]. split; [exact Hstore|].
    apply (Hall [] [] world_fresh); [reflexivity|reflexivity|constructor].
Defined.

(** The other places of the fetch step: a body that is no UTF-8, a
    cache directory that cannot be written, and a disk that is full,
    where the KML file is left empty. *)
Example undecodable_body_raises :
  _update_guide (R:=unit) env_garbled self_0 "skipperguide_german" false true world_fresh
  = (world_fresh, Raised UnicodeDecodeError).
Proof. reflexivity. Qed.

Example unwritable_cache_raises :
  _update_guide (R:=unit) env_read_only self_0 "skipperguide_german" false true world_fresh
  = (world_fresh, Raised (OSError "read-only file system")).
Proof. reflexivity. Qed.

Example full_disk_leaves_empty_kml :
  _update_guide (R:=unit) env_disk_full self_0 "skipperguide_german" false true world_fresh
  = (set_files {[ kml_filename self_0 "skipperguide_german" := "" ]} world_fresh,
     Raised (OSError "No space left on device")).
Proof. reflexivity. Qed.

(** ** Names outside the registry *)

(** C5, as the code has it: for a name that is no key of the registry,
    [_update_guide] raises [KeyError] when the fetch is attempted, that
    is when the GeoJSON cache file of the name is absent or [update] is
    set, and the world is untouched.  When the file is cached and
    [update] is not set, the registry is not consulted: the call is the
    import of the cached file, and it is the same call whatever the
    registry holds. *)
Theorem unknown_guide_fails_at_fetch {R} E self guide update clear w :
  dict_get (guides self) guide = None ->
  match w_files w !! geojson_filename self guide, update with
  | Some _, false =>
      _update_guide (R:=R) E self guide update clear w
      = call (import_block E self guide clear) w
      /\ (forall registry,
            _update_guide (R:=R) E (with_guides self registry) guide update clear w
            = _update_guide (R:=R) E self guide update clear w)
  | _, _ =>
      _update_guide (R:=R) E self guide update clear w = (w, Raised (KeyError guide))
  end.
Proof.
  intros Hg.
  assert (fetch_needed self guide update w = true ->
          _update_guide (R:=R) E self guide update clear w = (w, Raised (KeyError guide)))
    as Hfail.
  { intros Hn. rewrite _update_guide_run, (fetch_block_unknown _ _ _ _ _ Hn Hg).
    reflexivity. }
  destruct (w_files w !! geojson_filename self guide) as [text|] eqn:Hfile.
  2: { destruct update; apply Hfail, fetch_needed_true; by left. }
  destruct update; [apply Hfail, fetch_needed_true; by right|].
  assert (forall self', cache_path self' = cache_path self ->
            _update_guide (R:=R) E self' guide false clear w
            = call (import_block E self guide clear) w) as Hrun.
  { intros self' Hcp.
    assert (geojson_filename self' guide = geojson_filename self guide) as Hname
      by (unfold geojson_filename; by rewrite Hcp).
    rewrite _update_guide_run, fetch_block_skipped.
    2: { apply fetch_needed_false. rewrite Hname, Hfile. split; [by eexists|done]. }
    unfold call. rewrite !import_block_run, Hname, Hfile.
    destruct (json_loads E text) as [json_data|]; [|reflexivity].
    destruct (py_getitem json_data "features") as [features|]; [|reflexivity].
    destruct (py_len features) as [[|n]|]; [reflexivity| |reflexivity].
    destruct (insert_block E json_data _ _) as [w2 [[]|e|[]]]; reflexivity. }
  split; [by apply Hrun|].
  intros registry. rewrite (Hrun self eq_refl). by apply Hrun.
Qed.

Lemma unknown_guide_fails_at_fetch_witness :
  _update_guide (R:=unit) env_ok self_0 "harbours" false true world_fresh
  = (world_fresh, Raised (KeyError "harbours"))
  /\ _update_guide (R:=unit) env_ok self_0 "harbours" false true world_harbours
     = call (import_block env_ok self_0 "harbours" true) world_harbours
  /\ (forall registry,
        _update_guide (R:=unit) env_ok (with_guides self_0 registry) "harbours" false true
                      world_harbours
        = _update_guide (R:=unit) env_ok self_0 "harbours" false true world_harbours).
Proof.
  split.
  - apply (unknown_guide_fails_at_fetch env_ok self_0 "harbours" false true world_fresh).
    reflexivity.
  - apply (unknown_guide_fails_at_fetch env_ok self_0 "harbours" false true
             world_harbours).
    reflexivity.
Defined.

(** C5 as stated fails: with a GeoJSON file cached under the name, the
    registry is never consulted and the file is imported. *)
Lemma unknown_guide_imported_from_cache :
  dict_get (guides self_0) "harbours" = None
  /\ (_update_guide (R:=unit) env_ok self_0 "harbours" false true world_harbours).2
     = Normal tt
  /\ ~ (exists w', _update_guide (R:=unit) env_ok self_0 "harbours" false true world_harbours
                   = (w', Raised (KeyError "harbours"))).
Proof.
  split; [reflexivity|]. split; [vm_compute; reflexivity|].
  intros [w' H]. apply (f_equal snd) in H. vm_compute in H. discriminate H.
Qed.

(** ** An empty collection *)

(** C7: when the GeoJSON file that is loaded parses to a collection
    whose [features] have length zero, [_update_guide] logs one warning
    and returns; the store is as before the call. *)
Theorem empty_collection_leaves_store {R} E self guide update clear w w1 text
    json_data features :
  fetch_block E self guide update w = (w1, Normal tt) ->
  w_files w1 !! geojson_filename self guide = Some text ->
  json_loads E text = Val json_data ->
  py_getitem json_data "features" = Val features ->
  py_len features = Val 0 ->
  _update_guide (R:=R) E self guide update clear w
  = (add_log no_features_entry w1, Normal tt)
  /\ le_lvl no_features_entry = warn
  /\ w_store (add_log no_features_entry w1) = w_store w.
Proof.
  intros Hfetch Hfile Hjson Hfeat Hlen. split; [|split; [done|]].
  - rewrite _update_guide_run, Hfetch, import_block_run, Hfile, Hjson, Hfeat, Hlen.
    reflexivity.
  - destruct (fetch_block_store E self guide update w) as [Hs _].
    rewrite Hfetch in Hs. exact Hs.
Qed.

Lemma empty_collection_leaves_store_witness :
  _update_guide (R:=unit) env_ok self_0 "skipperguide_german" false true
                world_empty_collection
  = (add_log no_features_entry world_empty_collection, Normal tt)
  /\ le_lvl no_features_entry = warn
  /\ w_store (add_log no_features_entry world_empty_collection)
     = w_store world_empty_collection.
Proof.
  apply (empty_collection_leaves_store env_ok self_0 "skipperguide_german" false true
           world_empty_collection world_empty_collection "<collection: empty>"
           (JObj [("type", JStr "FeatureCollection"); ("features", JArr [])])
           (JArr [])).
  - reflexivity.
  - reflexivity.
  - reflexivity.
  - reflexivity.
  - reflexivity.
Defined.

(** ** Failures of the external tool *)

(** C8, as the code has it: once the KML file is written, [_translate]
    is run and [_update_guide] goes on with the load step in the world
    the tool left, whether the process could be started or not.  A
    process that cannot be started is logged at level [error] and the
    result [False] at level [debug]; a process that was started is
    logged as result [True] whatever its exit status, which is not
    looked at.  (Only what is no [Exception], like an interrupt while
    the process is waited for, passes through.) *)
Theorem tool_failure_continues_to_load {R} E self guide update clear w url data :
  w_files w !! geojson_filename self guide = None \/ update = true ->
  dict_get (guides self) guide = Some url ->
  urlopen_read_decode E url = Val data ->
  open_w_error E (kml_filename self guide) = None ->
  let w1 := set_files (<[kml_filename self guide := data]> (w_files w)) w in
  let command := translate_command self guide in
  let started := add_log (executing_entry command) w1 in
  match spawn E command (cache_path self) (w_files w1) with
  | Val p =>
      _update_guide (R:=R) E self guide update clear w
      = call (import_block E self guide clear)
          (add_log (translate_result_entry true) (set_files (files_after p) started))
  | Exc e =>
      if is_Exception e then
        _update_guide (R:=R) E self guide update clear w
        = call (import_block E self guide clear)
            (add_log (translate_result_entry false) (add_log (problem_entry command e) started))
        /\ le_lvl (problem_entry command e) = error
      else
        _update_guide (R:=R) E self guide update clear w = (started, Raised e)
  end.
Proof.
  intros Hn Hg Hu Hw w1 command started. apply fetch_needed_true in Hn.
  assert (forall w2,
            fetch_block E self guide update w = (w2, Normal tt) ->
            _update_guide (R:=R) E self guide update clear w
            = call (import_block E self guide clear) w2) as Hgo.
  { intros w2 Hf. rewrite _update_guide_run, Hf. unfold call.
    destruct (import_block E self guide clear w2) as [w3 [[]|e|[]]]; reflexivity. }
  pose proof (fetch_block_translate _ _ _ _ _ _ _ Hn Hg Hu Hw) as Hfetch.
  rewrite _translate_run in Hfetch. unfold translated in Hfetch.
  fold w1 in Hfetch. fold (translate_command self guide) in Hfetch. fold command in Hfetch.
  destruct (spawn E command (cache_path self) (w_files w1)) as [p|e].
  - apply Hgo. exact Hfetch.
  - destruct (is_Exception e).
    + split; [|done]. apply Hgo. exact Hfetch.
    + rewrite _update_guide_run, Hfetch. reflexivity.
Qed.

Lemma tool_failure_continues_to_load_witness :
  let w1 := set_files (<[kml_filename self_0 "skipperguide_german" := "<kml/>"]>
                         (w_files world_Kiel)) world_Kiel in
  let command := translate_command self_0 "skipperguide_german" in
  let started := add_log (executing_entry command) w1 in
  _update_guide (R:=unit) env_tool_fails self_0 "skipperguide_german" true true world_Kiel
  = call (import_block env_tool_fails self_0 "skipperguide_german" true)
      (add_log (translate_result_entry true)
         (set_files (files_after (Process 1 (w_files w1))) started)).
Proof.
  apply (tool_failure_continues_to_load env_tool_fails self_0 "skipperguide_german"
           true true world_Kiel
           "http://www.skipperguide.de/extension/GoogleEarthExport.php" "<kml/>").
  - right. reflexivity.
  - reflexivity.
  - reflexivity.
  - reflexivity.
Defined.

(** C8 as stated fails for the exit status: a tool that exits with
    status 1 leaves no entry of level [error] in the log; the stale
    GeoJSON file is imported all the same. *)
Lemma nonzero_exit_is_not_logged :
  let w1 := set_files (<[kml_filename self_0 "skipperguide_german" := "<kml/>"]>
                         (w_files world_Kiel)) world_Kiel in
  let run := _update_guide (R:=unit) env_tool_fails self_0 "skipperguide_german"
                           true true world_Kiel in
  (exists p, spawn env_tool_fails (translate_command self_0 "skipperguide_german")
                   (cache_path self_0) (w_files w1) = Val p
             /\ returncode p = 1%Z)
  /\ run.2 = Normal tt
  /\ ~ (exists le, le ∈ w_log run.1 /\ le_lvl le = error).
Proof.
  split; [eexists; split; reflexivity|].
  split; [vm_compute; reflexivity|].
  intros [le [Hin Hlvl]]. vm_compute in Hin.
  repeat (apply elem_of_cons in Hin as [->|Hin]; [discriminate Hlvl|]).
  inversion Hin.
Qed.

(** ** A feature without a name *)

Lemma built_stops layer_uuid E item after e : forall before k,
  feature_name item = Exc e ->
  exists e', built E layer_uuid k (before ++ item :: after) = Exc e'
             /\ (Forall (fun x => exists n, feature_name x = Val n) before -> e' = e).
Proof.
  induction before as [|x before IH]; intros k Hitem; simpl.
  - rewrite Hitem. eauto.
  - destruct (feature_name x) as [n|ex] eqn:Hx.
    + destruct (IH (S k) Hitem) as [e' [-> He']]. exists e'. split; [done|].
      intros Hall. apply He'. by inversion Hall.
    + exists ex. split; [done|]. intros Hall. inversion Hall as [|? ? [n Hn] _]; subst.
      congruence.
Qed.

(** The replacement of the layer deletes geo-objects at most. *)
Lemma replaced_geoobjects E guide clear w d :
  d ∈ geoobjects (w_store (replaced E guide clear w)) -> d ∈ geoobjects (w_store w).
Proof.
  unfold replaced, with_new_layer.
  destruct (found_layer guide w) as [l|]; destruct clear; simpl; try done;
    apply deleted_subset.
Qed.

(** C9: when a feature of the loaded collection has no [Name] among its
    properties, [_update_guide] ends with an exception raised while the
    records are constructed: the [KeyError] for [Name] when the features
    before it have names.  The bulk insert is not reached: every
    geo-object of the store was there before the call. *)
Theorem missing_name_aborts_before_insert {R} E self guide update clear w w1 text
    json_data before item after :
  fetch_block E self guide update w = (w1, Normal tt) ->
  w_files w1 !! geojson_filename self guide = Some text ->
  json_loads E text = Val json_data ->
  py_getitem json_data "features" = Val (JArr (before ++ item :: after)) ->
  feature_name item = Exc (KeyError "Name") ->
  exists w' e,
    _update_guide (R:=R) E self guide update clear w = (w', Raised e)
    /\ (Forall (fun x => exists n, feature_name x = Val n) before -> e = KeyError "Name")
    /\ (forall d, d ∈ geoobjects (w_store w') -> d ∈ geoobjects (w_store w)).
Proof.
  intros Hfetch Hfile Hjson Hfeat Hitem.
  rewrite _update_guide_run, Hfetch, import_block_run, Hfile, Hjson, Hfeat.
  simpl py_len. rewrite length_app. simpl length. rewrite Nat.add_succ_r.
  rewrite (insert_block_run E _ _ _ _ _ Hfeat eq_refl).
  destruct (built_stops (replace_uuid E guide clear w1) E item after (KeyError "Name")
              before (w_uuids (replaced E guide clear w1)) Hitem) as [e [-> He]].
  eexists _, e. split; [reflexivity|]. split; [exact He|].
  intros d Hd.
  destruct (built_world_store (before ++ item :: after) (replaced E guide clear w1))
    as [Hs _].
  rewrite Hs in Hd. apply replaced_geoobjects in Hd.
  destruct (fetch_block_store E self guide update w) as [Hs' _].
  rewrite Hfetch in Hs'. simpl in Hs'. by rewrite <- Hs'.
Qed.

Lemma missing_name_aborts_before_insert_witness :
  exists w' e,
    _update_guide (R:=unit) env_ok self_0 "skipperguide_german" false true world_unnamed
    = (w', Raised e)
    /\ (Forall (fun x => exists n, feature_name x = Val n) [] -> e = KeyError "Name")
    /\ (forall d, d ∈ geoobjects (w_store w') -> d ∈ geoobjects (w_store world_unnamed)).
Proof.
  apply (missing_name_aborts_before_insert env_ok self_0 "skipperguide_german" false true
           world_unnamed world_unnamed "<collection: unnamed>"
           (JObj [("type", JStr "FeatureCollection"); ("features", JArr [feature_unnamed])])
           [] feature_unnamed []).
  - reflexivity.
  - reflexivity.
  - reflexivity.
  - reflexivity.
  - reflexivity.
Defined.

(** ** Updating all guides *)

Lemma _update_guide_not_returned {R} E self guide update clear w (r : R) :
  (_update_guide (R:=R) E self guide update clear w).2 ≠ Returned r.
Proof.
  unfold _update_guide, call.
  match goal with |- context [let (_, _) := ?m in _] => destruct m as [w' [[]|e|[]]] end;
    simpl; discriminate.
Qed.

Lemma update_loop_run E self names : forall w,
  let run := for_each names (fun guide => _update_guide (R:=unit) E self guide false true) w in
  (run.2 = Normal tt /\ updated_in_turn E self names w run.1)
  \/ (exists e before name after wm,
        run.2 = Raised e
        /\ names = (before ++ name :: after)%list
        /\ updated_in_turn E self before w wm
        /\ _update_guide (R:=unit) E self name false true wm = (run.1, Raised e)).
Proof.
  induction names as [|name names IH]; intros w; simpl.
  - left. split; [reflexivity|constructor].
  - unfold bind.
    destruct (_update_guide E self name false true w) as [w1 [[]|e|[]]] eqn:Hname.
    + destruct (IH w1) as [[Hn Hturn]|(e & before & name' & after & wm & He & -> & Hturn & Hrun)].
      * left. split; [exact Hn|]. econstructor; eassumption.
      * right. exists e, (name :: before), name', after, wm.
        split; [exact He|]. split; [reflexivity|]. split; [|exact Hrun].
        econstructor; eassumption.
    + right. exists e, [], name, names, w. simpl.
      split; [reflexivity|]. split; [reflexivity|]. split; [constructor|exact Hname].
    + exfalso. eapply (_update_guide_not_returned E self name false true w tt).
      rewrite Hname. reflexivity.
Qed.

(** C4, as the code has it: [_update_guides] calls [_update_guide] with
    the default arguments on the names of the registry in their order
    for as long as the calls return, aborted updates included; the first
    call that raises ends the loop, and its exception leaves
    [_update_guides] with the guides after it not processed. *)
Theorem update_guides_until_first_exception {R} E self w :
  let run := _update_guides (R:=R) E self w in
  (run.2 = Normal tt /\ updated_in_turn E self (dict_keys (guides self)) w run.1)
  \/ (exists e before name after wm,
        run.2 = Raised e
        /\ dict_keys (guides self) = (before ++ name :: after)%list
        /\ updated_in_turn E self before w wm
        /\ _update_guide (R:=unit) E self name false true wm = (run.1, Raised e)).
Proof.
  unfold _update_guides, call.
  destruct (update_loop_run E self (dict_keys (guides self)) w)
    as [[Hn Hturn]|(e & before & name & after & wm & He & Hk & Hturn & Hrun)].
  - left. destruct (for_each _ _ w) as [w' o]. simpl in *. subst o. split; [done|exact Hturn].
  - right. exists e, before, name, after, wm.
    destruct (for_each _ _ w) as [w' o]. simpl in *. subst o. done.
Qed.

(** C4 as stated fails: the exception of a guide's update leaves
    [_update_guides]. *)
Lemma update_guides_raises :
  (_update_guides (R:=unit) env_ok self_0 world_unnamed).2 = Raised (KeyError "Name")
  /\ ~ (exists w', _update_guides (R:=unit) env_ok self_0 world_unnamed = (w', Normal tt)).
Proof.
  split; [vm_compute; reflexivity|].
  intros [w' H]. apply (f_equal snd) in H. vm_compute in H. discriminate H.
Qed.

(** ** Replacing a layer that exists *)

(** [self_0] is the component [__init__] builds on the instance
    [default]. *)
Example __init___default :
  __init__ (R:=unit) "default" world_fresh
  = (add_log (LogEntry info [LStr "Started"] false) world_fresh, Normal self_0).
Proof. reflexivity. Qed.

(** The world [world_Kiel] is what a first update leaves in store and
    GeoJSON cache. *)
Example first_update_reaches_world_Kiel :
  let run := _update_guide (R:=unit) env_ok self_0 "skipperguide_german" false true
                           world_fresh in
  run.2 = Normal tt
  /\ w_store run.1 = w_store world_Kiel
  /\ w_uuids run.1 = w_uuids world_Kiel
  /\ w_files run.1 !! geojson_filename self_0 "skipperguide_german"
     = w_files world_Kiel !! geojson_filename self_0 "skipperguide_german".
Proof. vm_compute. repeat split. Qed.

(** C1 fails on the code: the update of a guide whose layer exists
    deletes the layer record, but the deletion loop looks for the
    geo-objects of the identifier just generated, so the geo-object of
    the previous revision is still in the store after the call, and no
    layer carries the identifier it references. *)
Theorem old_features_survive_replacement :
  let run := _update_guide (R:=unit) env_ok self_0 "skipperguide_german" false true
                           world_Kiel in
  let old := (1, GeoObject "uuid-1" "uuid-0" feature_Kiel "Skipperguide" "Guide for Kiel") in
  old ∈ geoobjects (w_store world_Kiel)
  /\ layers_named "skipperguide_german" (w_store world_Kiel)
     = [(0, Layer "uuid-0" "skipperguide_german" "geoobjects")]
  /\ run.2 = Normal tt
  /\ layers (w_store run.1) = [(2, Layer "uuid-2" "skipperguide_german" "geoobjects")]
  /\ old ∈ geoobjects (w_store run.1).
Proof.
  vm_compute. repeat split; apply elem_of_cons; left; reflexivity.
Qed.

(** ** The update with default arguments, by its outcomes *)

Section Default.

Context (E : env) (self : GuideManager) (guide : string).

Abbreviation geojson := (geojson_filename self guide).
Abbreviation new_layer w :=
  (next_id (w_store w), Layer (uuid_at E (w_uuids w)) guide "geoobjects").

Lemma replaced_frame w :
  w_files (replaced E guide true w) = w_files w
  /\ w_uuids (replaced E guide true w) = S (w_uuids w)
  /\ next_id (w_store (replaced E guide true w)) = S (next_id (w_store w))
  /\ replace_uuid E guide true w = uuid_at E (w_uuids w).
Proof.
  unfold replaced, replace_uuid, with_new_layer.
  destruct (found_layer guide w); simpl; done.
Qed.

Lemma replaced_unreferenced w d :
  d ∈ geoobjects (w_store (replaced E guide true w)) ->
  geo_layer d.2 ≠ uuid_at E (w_uuids w).
Proof.
  unfold replaced, with_new_layer.
  destruct (found_layer guide w); simpl; apply deleted_found.
Qed.

Lemma found_layer_head w :
  found_layer guide w = head (layers_named guide (w_store w)).
Proof.
  unfold found_layer, layers_named.
  induction (layers (w_store w)) as [|d ls IH]; simpl; [done|].
  destruct (String.eqb_spec (lyr_name d.2) guide) as [Heq|Hne].
  - by rewrite filter_cons_True.
  - by rewrite filter_cons_False.
Qed.

Lemma filter_named_removed (l : nat * layer) ls :
  filter (fun d => lyr_name d.2 = guide) ls = [] ->
  filter (fun d => lyr_name d.2 = guide) (filter (fun d' => d'.1 ≠ l.1) ls) = [].
Proof.
  induction ls as [|d ls IH]; [done|].
  destruct (decide (lyr_name d.2 = guide)) as [Hd|Hd].
  - rewrite filter_cons_True by done. discriminate.
  - rewrite filter_cons_False by done. intros Hnil.
    destruct (decide (d.1 ≠ l.1)).
    + rewrite filter_cons_True by done. rewrite filter_cons_False by done. auto.
    + rewrite filter_cons_False by done. auto.
Qed.

Lemma filter_named_single (l : nat * layer) ls :
  filter (fun d => lyr_name d.2 = guide) ls = [l] ->
  filter (fun d => lyr_name d.2 = guide) (filter (fun d' => d'.1 ≠ l.1) ls) = [].
Proof.
  induction ls as [|d ls IH]; [done|].
  destruct (decide (lyr_name d.2 = guide)) as [Hd|Hd].
  - rewrite filter_cons_True by done. intros Heq. injection Heq as Hdl Hnil.
    rewrite filter_cons_False by (rewrite Hdl; intros H; by apply H).
    by apply filter_named_removed.
  - rewrite filter_cons_False by done. intros Hsingle.
    destruct (decide (d.1 ≠ l.1)).
    + rewrite filter_cons_True by done. rewrite filter_cons_False by done. auto.
    + rewrite filter_cons_False by done. auto.
Qed.

(** With at most one layer of the name before, the replacement leaves
    exactly the new one. *)
Lemma replaced_layers_named w :
  length (layers_named guide (w_store w)) <= 1 ->
  layers_named guide (w_store (replaced E guide true w)) = [new_layer w].
Proof.
  intros Hone. unfold replaced. rewrite found_layer_head.
  unfold layers_named in *.
  destruct (filter _ (layers (w_store w))) as [|l [|l' ls]] eqn:Hnamed; simpl in *.
  - rewrite filter_app, Hnamed. by rewrite filter_cons_True.
  - rewrite filter_app, (filter_named_single l _ Hnamed). by rewrite filter_cons_True.
  - lia.
Qed.

Lemma with_ids_snd {A} (xs : list A) : forall k, (with_ids k xs).*2 = xs.
Proof. induction xs as [|x xs IH]; intros k; simpl; [done|]. by rewrite IH. Qed.

Lemma with_ids_keys {A} (xs : list A) : forall k d, d ∈ with_ids k xs -> k <= d.1.
Proof.
  induction xs as [|x xs IH]; intros k d Hd; simpl in Hd; [inversion Hd|].
  apply elem_of_cons in Hd as [->|Hd]; simpl; [lia|]. apply IH in Hd. lia.
Qed.

Lemma filter_all {A} (P : A -> Prop) `{forall x, Decision (P x)} (xs : list A) :
  Forall P xs -> filter P xs = xs.
Proof.
  induction 1 as [|x xs Hx _ IH]; [done|]. rewrite filter_cons_True by done. by f_equal.
Qed.

Lemma filter_none {A} (P : A -> Prop) `{forall x, Decision (P x)} (xs : list A) :
  Forall (fun x => ~ P x) xs -> filter P xs = [].
Proof.
  induction 1 as [|x xs Hx _ IH]; [done|]. by rewrite filter_cons_False.
Qed.

Lemma with_ids_layer uuid (locations : list geoobject) : forall k,
  Forall (fun g => geo_layer g = uuid) locations ->
  Forall (fun d : nat * geoobject => geo_layer d.2 = uuid) (with_ids k locations).
Proof.
  induction locations as [|g gs IH]; intros k Hall; simpl; [constructor|].
  inversion Hall; subst. constructor; [done|]. by apply IH.
Qed.

Lemma completed_frame items locations w :
  w_files (completed E guide items locations w) = w_files w
  /\ next_id (w_store (completed E guide items locations w))
     = S (next_id (w_store w)) + length locations
  /\ layers (w_store (completed E guide items locations w))
     = layers (w_store (replaced E guide true w)).
Proof.
  unfold completed, inserted. simpl.
  destruct (built_world_store items (replaced E guide true w)) as [-> ->].
  destruct (replaced_frame w) as (-> & _ & -> & _). done.
Qed.

Lemma completed_layers_named items locations w :
  length (layers_named guide (w_store w)) <= 1 ->
  layers_named guide (w_store (completed E guide items locations w)) = [new_layer w].
Proof.
  intros Hone. unfold layers_named.
  destruct (completed_frame items locations w) as (_ & _ & ->).
  by apply replaced_layers_named.
Qed.

Lemma completed_referencing items locations w k :
  built E (uuid_at E (w_uuids w)) k items = Val locations ->
  referencing (uuid_at E (w_uuids w)) (w_store (completed E guide items locations w))
  = with_ids (S (next_id (w_store w))) locations.
Proof.
  intros Hbuilt. unfold referencing, completed, inserted. simpl.
  destruct (built_world_store items (replaced E guide true w)) as [-> _].
  destruct (replaced_frame w) as (_ & _ & -> & _).
  rewrite filter_app, filter_none, filter_all; [done| |].
  - apply with_ids_layer. by eapply built_layer.
  - apply Forall_forall. intros d Hd. by apply replaced_unreferenced.
Qed.

Lemma built_fails_at layer_uuid items : forall k e,
  built E layer_uuid k items = Exc e ->
  exists item, item ∈ items /\ feature_name item = Exc e.
Proof.
  induction items as [|x items IH]; intros k e H; simpl in H; [done|].
  destruct (feature_name x) as [n|ex] eqn:Hx.
  - destruct (built E layer_uuid (S k) items) as [locs|e'] eqn:Hb; [done|].
    inversion H; subst. destruct (IH _ _ Hb) as [item [Hin Hitem]].
    exists item. split; [by apply elem_of_cons; right|done].
  - inversion H; subst. exists x. split; [by apply elem_of_cons; left|done].
Qed.

(** Which records are built depends on the identifiers only in the
    identifier fields. *)
Lemma built_payload layer_uuid layer_uuid' items : forall k k' locations,
  built E layer_uuid k items = Val locations ->
  exists locations',
    built E layer_uuid' k' items = Val locations'
    /\ payload <$> locations' = payload <$> locations.
Proof.
  induction items as [|x items IH]; intros k k' locs H; simpl in *.
  - inversion H; subst. by exists [].
  - destruct (feature_name x) as [n|]; [|done].
    destruct (built E layer_uuid (S k) items) as [l|] eqn:Hb; [|done].
    inversion H; subst.
    destruct (IH (S k) (S k') _ Hb) as [l' [-> Hl']].
    eexists. split; [reflexivity|]. simpl. unfold payload at 1 3. simpl. by f_equal.
Qed.

(** The outcomes of [_update_guide] with the default arguments. *)
Lemma _update_guide_default_cases {R} w :
  let run := _update_guide (R:=R) E self guide false true w in
  exists w1,
    w_store w1 = w_store w /\ w_uuids w1 = w_uuids w /\
    ((exists e, run = (w1, Raised e))
     \/ (exists url e,
           fetch_needed self guide false w = true
           /\ dict_get (guides self) guide = Some url
           /\ urlopen_read_decode E url = Exc e
           /\ is_URLError e = true
           /\ w1 = w
           /\ run = (add_log (fetch_warning e) w, Normal tt))
     \/ (exists text json_data features,
           loaded E self guide w1 text json_data features
           /\ py_len features = Val 0
           /\ run = (add_log no_features_entry w1, Normal tt))
     \/ (exists text json_data features n items e,
           loaded E self guide w1 text json_data features
           /\ py_len features = Val (S n)
           /\ py_iter features = Val items
           /\ built E (uuid_at E (w_uuids w1)) (S (w_uuids w1)) items = Exc e
           /\ run = (built_world items (replaced E guide true w1), Raised e))
     \/ (exists text json_data features n items locations,
           loaded E self guide w1 text json_data features
           /\ py_len features = Val (S n)
           /\ py_iter features = Val items
           /\ built E (uuid_at E (w_uuids w1)) (S (w_uuids w1)) items = Val locations
           /\ run = (completed E guide items locations w1, Normal tt))).
Proof.
  intros run. subst run. rewrite _update_guide_run.
  destruct (fetch_block_store E self guide false w) as [Hstore Huuids].
  destruct (fetch_block E self guide false w) as [w1 o] eqn:Hfetch. simpl in *.
  destruct o as [[]|e|[]].
  2: { exists w1. split; [done|]. split; [done|]. left. by exists e. }
  2: { (* the fetch returned: only the handler of the fetch does *)
    exists w. split; [done|]. split; [done|]. right; left.
    destruct (fetch_needed self guide false w) eqn:Hn.
    2: { rewrite fetch_block_skipped in Hfetch by done. done. }
    destruct (dict_get (guides self) guide) as [url|] eqn:Hg.
    2: { rewrite fetch_block_unknown in Hfetch by done. done. }
    destruct (urlopen_read_decode E url) as [data|e] eqn:Hu.
    - destruct (open_w_error E (kml_filename self guide)) as [e|] eqn:Hw.
      + rewrite (fetch_block_write_error _ _ _ _ _ _ _ _ Hn Hg Hu Hw) in Hfetch. done.
      + rewrite (fetch_block_translate _ _ _ _ _ _ _ Hn Hg Hu Hw), _translate_run in Hfetch.
        destruct (spawn E _ _ _) as [p|e]; [done|]. destruct (is_Exception e); done.
    - rewrite (fetch_block_fetch_error _ _ _ _ _ _ _ Hn Hg Hu) in Hfetch.
      destruct (is_URLError e) eqn:He; [|done]. inversion Hfetch; subst.
      exists url, e. done. }
  exists w1. split; [done|]. split; [done|].
  rewrite import_block_run.
  destruct (w_files w1 !! geojson) as [text|] eqn:Hfile; [|left; by eexists].
  destruct (json_loads E text) as [jd|e] eqn:Hjson; [|left; by eexists].
  destruct (py_getitem jd "features") as [fs|e] eqn:Hfeat; [|left; by eexists].
  destruct (py_len fs) as [[|n]|e] eqn:Hlen; [| |left; by eexists].
  - right; right; left. exists text, jd, fs. done.
  - destruct (py_len_iter _ _ Hlen) as [items [Hiter Hitems]].
    rewrite (insert_block_run E _ _ _ _ _ Hfeat Hiter).
    destruct (replaced_frame w1) as (_ & -> & _ & ->).
    destruct (built E _ _ items) as [locs|e] eqn:Hbuilt.
    + right; right; right; right. exists text, jd, fs, n, items, locs. done.
    + right; right; right; left. exists text, jd, fs, n, items, e. done.
Qed.

End Default.

(** ** What an update leaves in the store *)

Lemma cached_features_loaded E self guide w w' text json_data features items :
  loaded E self guide w text json_data features ->
  py_iter features = Val items ->
  w_files w' = w_files w ->
  cached_features E self guide w' = Some items.
Proof.
  intros (Hfile & Hjson & Hfeat) Hiter Hfiles.
  unfold cached_features. by rewrite Hfiles, Hfile, Hjson, Hfeat, Hiter.
Qed.

Lemma with_ids_length {A} (xs : list A) k : length (with_ids k xs) = length xs.
Proof. by rewrite <- (with_ids_snd xs k) at 2; rewrite length_fmap. Qed.

(** The update of a guide keeps the store at one layer of its name at
    most, so stores the component alone has filled satisfy the
    condition of the two statements below. *)
Lemma one_layer_per_name_kept {R} E self guide w :
  length (layers_named guide (w_store w)) <= 1 ->
  length (layers_named guide
            (w_store (_update_guide (R:=R) E self guide false true w).1)) <= 1.
Proof.
  intros Hone.
  destruct (_update_guide_default_cases (R:=R) E self guide w)
    as (w1 & Hstore & Huuids & Hcases). cbv zeta in Hcases.
  destruct Hcases as [(e & ->)|[(url & e & _ & _ & _ & _ & _ & ->)|
    [(text & jd & fs & _ & _ & ->)|
     [(text & jd & fs & n & items & e & _ & _ & _ & _ & ->)|
      (text & jd & fs & n & items & locs & _ & _ & _ & _ & ->)]]]];
    cbn [fst snd].
  - by rewrite Hstore.
  - done.
  - cbn [add_log w_store]. by rewrite Hstore.
  - destruct (built_world_store items (replaced E guide true w1)) as [-> _].
    rewrite replaced_layers_named by (by rewrite Hstore). simpl. lia.
  - rewrite completed_layers_named by (by rewrite Hstore). simpl. lia.
Qed.

Lemma replaced_store_same E guide w1 w :
  w_store w1 = w_store w ->
  w_uuids w1 = w_uuids w ->
  w_store (replaced E guide true w1) = w_store (replaced E guide true w).
Proof.
  intros Hs Hu. unfold replaced, with_new_layer, found_layer. rewrite Hs, Hu.
  by destruct (List.find _ (layers (w_store w))).
Qed.

(** C2, as the code has it: on a store with at most one layer of the
    name, [_update_guide] with the default arguments leaves the store
    unchanged, or returns with exactly one layer of the name in the
    store, referenced by as many geo-objects as the cached collection
    has features, or raises the exception met while the name of one of
    the features was looked up.  In the last case the store is the one
    the replacement of the layer left: it holds exactly one layer of the
    name, which no geo-object references, and no geo-object that was
    not there before the call. *)
Theorem update_guide_replaces_or_leaves {R} E self guide w :
  length (layers_named guide (w_store w)) <= 1 ->
  let run := _update_guide (R:=R) E self guide false true w in
  w_store run.1 = w_store w
  \/ (run.2 = Normal tt /\ holds_guide E self guide run.1)
  \/ (exists e items item l,
        run.2 = Raised e
        /\ cached_features E self guide run.1 = Some items
        /\ item ∈ items
        /\ feature_name item = Exc e
        /\ w_store run.1 = w_store (replaced E guide true w)
        /\ layers_named guide (w_store run.1) = [l]
        /\ referencing (lyr_uuid l.2) (w_store run.1) = []
        /\ (forall d, d ∈ geoobjects (w_store run.1) -> d ∈ geoobjects (w_store w))).
Proof.
  intros Hone run.
  destruct (_update_guide_default_cases (R:=R) E self guide w)
    as (w1 & Hstore & Huuids & Hcases).
  fold run in Hcases.
  destruct Hcases as [(e & ->)|[(url & e & _ & _ & _ & _ & _ & ->)|
    [(text & jd & fs & _ & _ & ->)|
     [(text & jd & fs & n & items & e & Hload & Hlen & Hiter & Hbuilt & ->)|
      (text & jd & fs & n & items & locs & Hload & Hlen & Hiter & Hbuilt & ->)]]]];
    cbn [fst snd].
  - by left.
  - by left.
  - by left.
  - right; right.
    destruct (built_fails_at E _ _ _ _ Hbuilt) as [item [Hin Hitem]].
    destruct (built_world_store items (replaced E guide true w1)) as [Hs Hf].
    exists e, items, item,
      (next_id (w_store w1), Layer (uuid_at E (w_uuids w1)) guide "geoobjects").
    split; [done|]. split.
    { eapply cached_features_loaded; [exact Hload|exact Hiter|].
      rewrite Hf. by destruct (replaced_frame E guide w1) as (-> & _). }
    split; [done|]. split; [done|]. rewrite Hs.
    split; [by apply replaced_store_same|].
    split; [apply replaced_layers_named; by rewrite Hstore|].
    split.
    + cbn [snd lyr_uuid]. unfold referencing. apply filter_none, Forall_forall.
      intros d Hd. exact (replaced_unreferenced E guide w1 d Hd).
    + intros d Hd. apply replaced_geoobjects in Hd. by rewrite <- Hstore.
  - right; left. split; [done|].
    exists (next_id (w_store w1), Layer (uuid_at E (w_uuids w1)) guide "geoobjects"), items.
    split; [|split].
    + apply completed_layers_named. by rewrite Hstore.
    + eapply cached_features_loaded; [exact Hload|exact Hiter|].
      by destruct (completed_frame E guide items locs w1) as (-> & _).
    + cbn [fst snd lyr_uuid].
      rewrite (completed_referencing E guide _ _ _ _ Hbuilt), with_ids_length.
      by eapply built_length.
Qed.

Lemma update_guide_replaces_or_leaves_witness :
  let run := _update_guide (R:=unit) env_ok self_0 "skipperguide_german" false true
                           world_Kiel in
  w_store run.1 = w_store world_Kiel
  \/ (run.2 = Normal tt /\ holds_guide env_ok self_0 "skipperguide_german" run.1)
  \/ (exists e items item l,
        run.2 = Raised e
        /\ cached_features env_ok self_0 "skipperguide_german" run.1 = Some items
        /\ item ∈ items
        /\ feature_name item = Exc e
        /\ w_store run.1 = w_store (replaced env_ok "skipperguide_german" true world_Kiel)
        /\ layers_named "skipperguide_german" (w_store run.1) = [l]
        /\ referencing (lyr_uuid l.2) (w_store run.1) = []
        /\ (forall d, d ∈ geoobjects (w_store run.1)
                      -> d ∈ geoobjects (w_store world_Kiel))).
Proof.
  apply (update_guide_replaces_or_leaves env_ok self_0 "skipperguide_german" world_Kiel).
  vm_compute. lia.
Defined.

(** C2 as stated fails: a feature without [Name] makes the call raise
    after the layer was created, so the store has changed and the one
    layer of the name is referenced by no geo-object, while the cached
    collection has one feature.  And on a store that holds two layers
    of the name, the call that returns leaves two. *)
Lemma update_guide_neither_replaces_nor_leaves :
  let run := _update_guide (R:=unit) env_ok self_0 "skipperguide_german" false true
                           world_unnamed in
  let run' := _update_guide (R:=unit) env_ok self_0 "skipperguide_german" false true
                            world_two_layers in
  dict_get (guides self_0) "skipperguide_german"
  = Some "http://www.skipperguide.de/extension/GoogleEarthExport.php"
  /\ run.2 = Raised (KeyError "Name")
  /\ ~ (w_store run.1 = w_store world_unnamed
        \/ holds_guide env_ok self_0 "skipperguide_german" run.1)
  /\ run'.2 = Normal tt
  /\ ~ (w_store run'.1 = w_store world_two_layers
        \/ holds_guide env_ok self_0 "skipperguide_german" run'.1).
Proof.
  split; [reflexivity|]. split; [vm_compute; reflexivity|]. split; [|split].
  - intros [H|(l & items & Hl & Hitems & Hcount)].
    + apply (f_equal next_id) in H. vm_compute in H. discriminate H.
    + vm_compute in Hl. injection Hl as <-.
      vm_compute in Hitems. injection Hitems as <-.
      vm_compute in Hcount. discriminate Hcount.
  - vm_compute. reflexivity.
  - intros [H|(l & items & Hl & _)].
    + apply (f_equal next_id) in H. vm_compute in H. discriminate H.
    + vm_compute in Hl. discriminate Hl.
Qed.

(** ** Updating twice *)

(** C3, as the code has it: after a call of [_update_guide] with the
    default arguments that returned, a second call returns as well.  If
    the first call left the store unchanged, so does the second.
    Otherwise the second call skips the fetch and leaves the cache as
    it is, the layer record of the first call is gone, and the store
    again holds exactly one layer of the name, whose geo-objects carry
    the same features, types and names in the same order as those the
    first call inserted for its layer; the identifiers are new. *)
Theorem second_update_same_features {R} E self guide w :
  length (layers_named guide (w_store w)) <= 1 ->
  let first := _update_guide (R:=R) E self guide false true w in
  let second := _update_guide (R:=R) E self guide false true first.1 in
  first.2 = Normal tt ->
  second.2 = Normal tt
  /\ ((w_store first.1 = w_store w /\ w_store second.1 = w_store first.1)
      \/ (fetch_needed self guide false first.1 = false
          /\ w_files second.1 = w_files first.1
          /\ exists l1 l2,
               layers_named guide (w_store first.1) = [l1]
               /\ layers_named guide (w_store second.1) = [l2]
               /\ (l1 ∉ layers (w_store second.1))
               /\ payload <$> ((referencing (lyr_uuid l2.2) (w_store second.1)).*2)
                  = payload <$> ((referencing (lyr_uuid l1.2) (w_store first.1)).*2))).
Proof.
  intros Hone first second Hfirst.
  destruct (_update_guide_default_cases (R:=R) E self guide w)
    as (w1 & Hstore & Huuids & Hcases).
  fold first in Hcases.
  destruct Hcases as [(e & Hrun)|[(url & e & Hn & Hg & Hu & He & _ & Hrun)|
    [(text & jd & fs & Hload & Hlen & Hrun)|
     [(text & jd & fs & n & items & e & _ & _ & _ & _ & Hrun)|
      (text & jd & fs & n & items & locs & Hload & Hlen & Hiter & Hbuilt & Hrun)]]]].
  - rewrite Hrun in Hfirst. discriminate Hfirst.
  - (* the fetch failed, and fails again *)
    subst second. rewrite Hrun. cbn [fst snd].
    rewrite _update_guide_run.
    rewrite (fetch_block_fetch_error E self guide false (add_log (fetch_warning e) w)
               url e Hn Hg Hu), He.
    cbn [fst snd]. split; [done|]. left. done.
  - (* no features, and none again *)
    subst second. rewrite Hrun. cbn [fst snd].
    destruct Hload as (Hfile & Hjson & Hfeat).
    rewrite _update_guide_run, fetch_block_skipped.
    2: { apply fetch_needed_false. cbn [add_log w_files]. rewrite Hfile.
         split; [by eexists|done]. }
    rewrite import_block_run. cbn [add_log w_files]. rewrite Hfile, Hjson, Hfeat, Hlen.
    cbn [fst snd]. split; [done|]. left. done.
  - rewrite Hrun in Hfirst. discriminate Hfirst.
  - (* the import was completed, and is again *)
    set (w2 := completed E guide items locs w1) in *.
    destruct (completed_frame E guide items locs w1) as (Hfiles2 & Hnext2 & Hlayers2).
    fold w2 in Hfiles2, Hnext2, Hlayers2.
    assert (layers_named guide (w_store w2)
            = [(next_id (w_store w1), Layer (uuid_at E (w_uuids w1)) guide "geoobjects")])
      as Hnamed2.
    { apply completed_layers_named. by rewrite Hstore. }
    destruct (built_payload E (uuid_at E (w_uuids w1)) (uuid_at E (w_uuids w2)) items
                (S (w_uuids w1)) (S (w_uuids w2)) locs Hbuilt) as (locs' & Hbuilt' & Hpay).
    destruct Hload as (Hfile & Hjson & Hfeat).
    assert (fetch_needed self guide false w2 = false) as Hskip.
    { apply fetch_needed_false. rewrite Hfiles2, Hfile. split; [by eexists|done]. }
    assert (second = (completed E guide items locs' w2, Normal tt)) as Hsecond.
    { subst second. rewrite Hrun. cbn [fst snd].
      rewrite _update_guide_run, fetch_block_skipped by exact Hskip.
      rewrite import_block_run, Hfiles2, Hfile, Hjson, Hfeat, Hlen.
      rewrite (insert_block_run E _ _ _ _ _ Hfeat Hiter).
      destruct (replaced_frame E guide w2) as (_ & -> & _ & ->).
      rewrite Hbuilt'. reflexivity. }
    rewrite Hsecond, Hrun. cbn [fst snd]. split; [done|]. right.
    split; [exact Hskip|].
    destruct (completed_frame E guide items locs' w2) as (Hfiles3 & Hnext3 & Hlayers3).
    split; [exact Hfiles3|].
    eexists _, _. split; [exact Hnamed2|].
    split; [apply completed_layers_named; rewrite Hnamed2; simpl; lia|].
    split.
    + rewrite Hlayers3. unfold replaced. rewrite found_layer_head, Hnamed2.
      cbn [head]. unfold with_new_layer. cbn [w_store layers].
      intros Hin. apply elem_of_app in Hin as [Hin|Hin].
      * apply list_elem_of_filter in Hin as [Hne _]. by apply Hne.
      * apply list_elem_of_singleton in Hin. injection Hin as Hid _.
        change (next_id (w_store w1) = next_id (w_store w2)) in Hid.
        rewrite Hnext2 in Hid. lia.
    + cbn [snd lyr_uuid].
      rewrite (completed_referencing E guide _ _ _ _ Hbuilt'). subst w2.
      rewrite (completed_referencing E guide _ _ _ _ Hbuilt).
      by rewrite !with_ids_snd.
Qed.

Lemma second_update_same_features_witness :
  let first := _update_guide (R:=unit) env_ok self_0 "skipperguide_german" false true
                             world_fresh in
  let second := _update_guide (R:=unit) env_ok self_0 "skipperguide_german" false true
                              first.1 in
  second.2 = Normal tt
  /\ ((w_store first.1 = w_store world_fresh /\ w_store second.1 = w_store first.1)
      \/ (fetch_needed self_0 "skipperguide_german" false first.1 = false
          /\ w_files second.1 = w_files first.1
          /\ exists l1 l2,
               layers_named "skipperguide_german" (w_store first.1) = [l1]
               /\ layers_named "skipperguide_german" (w_store second.1) = [l2]
               /\ (l1 ∉ layers (w_store second.1))
               /\ payload <$> ((referencing (lyr_uuid l2.2) (w_store second.1)).*2)
                  = payload <$> ((referencing (lyr_uuid l1.2) (w_store first.1)).*2))).
Proof.
  apply (second_update_same_features env_ok self_0 "skipperguide_german" world_fresh).
  - vm_compute. lia.
  - vm_compute. reflexivity.
Defined.

(** C3 as stated fails: the second call leaves a store that differs
    from the one the first call left.  The layer and the geo-object
    have new identifiers, and the geo-object the first call inserted
    is still there next to the new one. *)
Lemma second_update_changes_store :
  let once := (_update_guide (R:=unit) env_ok self_0 "skipperguide_german" false true
                             world_fresh).1 in
  let twice := (_update_guide (R:=unit) env_ok self_0 "skipperguide_german" false true
                              once).1 in
  w_store twice ≠ w_store once
  /\ layers (w_store once) = [(0, Layer "uuid-0" "skipperguide_german" "geoobjects")]
  /\ layers (w_store twice) = [(2, Layer "uuid-2" "skipperguide_german" "geoobjects")]
  /\ length (geoobjects (w_store once)) = 1
  /\ length (geoobjects (w_store twice)) = 2.
Proof.
  split; [|vm_compute; repeat split].
  intros H. apply (f_equal next_id) in H. vm_compute in H. discriminate H.
Qed.

(** * Further properties of the module *)

(** ** The cache file names *)

Lemma last_ascii_app s t :
  t ≠ EmptyString -> last_ascii (s +:+ t) = last_ascii t.
Proof.
  intros Ht. induction s as [|c s IH]; [reflexivity|].
  change (last_ascii (String c (s +:+ t)) = last_ascii t).
  rewrite <- IH. destruct (s +:+ t) eqn:Hst; [|reflexivity].
  exfalso. destruct s; cbn in Hst; [contradiction|discriminate Hst].
Qed.

Lemma string_app_not_empty (s t : string) : t ≠ EmptyString -> s +:+ t ≠ EmptyString.
Proof. intros Ht. destruct s; [exact Ht|discriminate]. Qed.

Lemma string_app_assoc (a b c : string) : (a +:+ b) +:+ c = a +:+ (b +:+ c).
Proof.
  induction a as [|x a IH]; [reflexivity|].
  change (String x ((a +:+ b) +:+ c) = String x (a +:+ (b +:+ c))). by rewrite IH.
Qed.

(** Whatever the first component, the joined path ends in the second. *)
Lemma os_path_join_suffix a b : exists p, os_path_join a b = p +:+ b.
Proof.
  unfold os_path_join. destruct (String.prefix "/" b).
  - by exists "".
  - destruct (String.eqb a "" || endswith_sep a).
    + by exists a.
    + exists (a +:+ "/"). by rewrite string_app_assoc.
Qed.

Lemma os_path_join_last a b :
  b ≠ EmptyString -> last_ascii (os_path_join a b) = last_ascii b.
Proof.
  intros Hb. destruct (os_path_join_suffix a b) as [p ->]. by apply last_ascii_app.
Qed.

(** X1: The KML file of a guide is never the GeoJSON file of a guide, the
    same or another: the write of the fetched body cannot hit a GeoJSON
    cache file. *)
Theorem cache_filenames_distinct self guide guide' :
  kml_filename self guide ≠ geojson_filename self guide'.
Proof.
  intros H. apply (f_equal last_ascii) in H. unfold kml_filename, geojson_filename in H.
  rewrite !os_path_join_last in H by (apply string_app_not_empty; discriminate).
  rewrite !last_ascii_app in H by discriminate. vm_compute in H. discriminate H.
Qed.

Lemma prefix_cons a s b t :
  String.prefix (String a s) (String b t)
  = if ascii_dec a b then String.prefix s t else false.
Proof. reflexivity. Qed.

Lemma prefix_app a b : String.prefix a (a +:+ b) = true.
Proof.
  induction a as [|c a IH]; [by destruct b|].
  change (String.prefix (String c a) (String c (a +:+ b)) = true).
  rewrite prefix_cons. destruct (ascii_dec c c); [exact IH|contradiction].
Qed.

Lemma prefix_sep_app guide ext :
  String.prefix "/" ext = false ->
  String.prefix "/" (guide +:+ ext) = String.prefix "/" guide.
Proof.
  intros Hext. destruct guide as [|c guide]; [exact Hext|].
  change (String.prefix "/" (String c (guide +:+ ext)) = String.prefix "/" (String c guide)).
  rewrite !prefix_cons. destruct (ascii_dec "/" c); [|reflexivity].
  by destruct (guide +:+ ext), guide.
Qed.

(** X2: Where the cache files of a guide lie: below [cache_path], unless the
    name of the guide begins with the separator; then [cache_path] is
    dropped and the name itself is the path. *)
Theorem cache_filename_location self guide :
  if String.prefix "/" guide
  then kml_filename self guide = guide +:+ ".kml"
       /\ geojson_filename self guide = guide +:+ ".geojson"
  else String.prefix (cache_path self) (kml_filename self guide) = true
       /\ String.prefix (cache_path self) (geojson_filename self guide) = true.
Proof.
  unfold kml_filename, geojson_filename, os_path_join.
  rewrite !prefix_sep_app by reflexivity.
  destruct (String.prefix "/" guide); [done|].
  destruct (String.eqb (cache_path self) "" || endswith_sep (cache_path self));
    split; apply prefix_app.
Qed.

(** ** The external command *)

(** X3: [_runcommand] answers [True] exactly when the process could be
    started, whatever its exit status, and then the cache is what the
    process left; when it could not be started the cache is untouched,
    the last log entry is the problem report at level [error] with the
    traceback, and the answer is [False].  Only what is no [Exception]
    leaves it.  The store is never touched. *)
Theorem _runcommand_outcome {R} E self command w :
  let run := _runcommand (R:=R) E self command w in
  w_store run.1 = w_store w
  /\ match spawn E command (cache_path self) (w_files w) with
     | Val p => run.2 = Normal true /\ w_files run.1 = files_after p
     | Exc e =>
         w_files run.1 = w_files w
         /\ if is_Exception e
            then run.2 = Normal false
                 /\ last (w_log run.1) = Some (problem_entry command e)
                 /\ le_lvl (problem_entry command e) = error
                 /\ le_exc (problem_entry command e) = true
            else run.2 = Raised e
     end.
Proof.
  intros run. subst run.
  destruct (spawn E command (cache_path self) (w_files w)) as [p|e] eqn:Hs.
  - rewrite (_runcommand_started E self command w p Hs). done.
  - destruct (is_Exception e) eqn:He.
    + rewrite (_runcommand_spawn_error E self command w e Hs He). cbn [fst snd].
      repeat split. unfold add_log; cbn [w_log]. by rewrite last_snoc.
    + rewrite (_runcommand_interrupted E self command w e Hs He). done.
Qed.

(** ** Errors of the load step *)

(** X4: When the cache file is there but the load step raises, because the
    text is no JSON, because the document has no key [features] or
    cannot be indexed by one, or because the features have no length,
    the exception leaves [_update_guide] and the store is as before the
    call. *)
Theorem load_error_leaves_store {R} E self guide update clear w w1 text e :
  fetch_block E self guide update w = (w1, Normal tt) ->
  w_files w1 !! geojson_filename self guide = Some text ->
  load_error E text = Some e ->
  _update_guide (R:=R) E self guide update clear w = (w1, Raised e)
  /\ w_store w1 = w_store w.
Proof.
  intros Hfetch Hfile Herr. split.
  - rewrite _update_guide_run, Hfetch, import_block_run, Hfile.
    unfold load_error in Herr.
    destruct (json_loads E text) as [jd|e1]; [|by inversion Herr].
    destruct (py_getitem jd "features") as [fs|e1]; [|by inversion Herr].
    destruct (py_len fs) as [n|e1]; [discriminate Herr|by inversion Herr].
  - destruct (fetch_block_store E self guide update w) as [Hs _].
    by rewrite Hfetch in Hs.
Qed.

Lemma load_error_leaves_store_witness :
  _update_guide (R:=unit) env_keyed self_0 "skipperguide_german" false true
                world_single_feature
  = (world_single_feature, Raised (KeyError "features"))
  /\ w_store world_single_feature = w_store world_single_feature.
Proof.
  apply (load_error_leaves_store env_keyed self_0 "skipperguide_german" false true
           world_single_feature world_single_feature "<feature: Kiel>"
           (KeyError "features")).
  - reflexivity.
  - reflexivity.
  - reflexivity.
Defined.

(** X5: When no GeoJSON file is cached and the tool cannot be started, the
    fetched body has been written to the KML file, and the load step
    raises [FileNotFoundError] for the GeoJSON file; the store is as
    before the call. *)
Theorem missing_geojson_raises {R} E self guide update clear w url data e :
  w_files w !! geojson_filename self guide = None ->
  dict_get (guides self) guide = Some url ->
  urlopen_read_decode E url = Val data ->
  open_w_error E (kml_filename self guide) = None ->
  spawn E (translate_command self guide) (cache_path self)
        (<[kml_filename self guide := data]> (w_files w)) = Exc e ->
  is_Exception e = true ->
  let run := _update_guide (R:=R) E self guide update clear w in
  run.2 = Raised (FileNotFoundError (geojson_filename self guide))
  /\ w_store run.1 = w_store w
  /\ w_files run.1 = <[kml_filename self guide := data]> (w_files w).
Proof.
  intros Hfile Hg Hu Hw Hs He run. subst run.
  assert (fetch_needed self guide update w = true) as Hn
    by (apply fetch_needed_true; by left).
  rewrite _update_guide_run, (fetch_block_translate _ _ _ _ _ _ _ Hn Hg Hu Hw).
  rewrite _translate_run. unfold translated. cbn [set_files w_files].
  fold (translate_command self guide). rewrite Hs, He.
  rewrite import_block_run. cbn [add_log set_files w_files].
  rewrite lookup_insert_ne by apply cache_filenames_distinct.
  rewrite Hfile. done.
Qed.

Lemma missing_geojson_raises_witness :
  let run := _update_guide (R:=unit) env_no_tool self_0 "skipperguide_german" false true
                           world_fresh in
  run.2 = Raised (FileNotFoundError (geojson_filename self_0 "skipperguide_german"))
  /\ w_store run.1 = w_store world_fresh
  /\ w_files run.1
     = <[kml_filename self_0 "skipperguide_german" := "<kml/>"]> (w_files world_fresh).
Proof.
  apply (missing_geojson_raises env_no_tool self_0 "skipperguide_german" false true
           world_fresh "http://www.skipperguide.de/extension/GoogleEarthExport.php"
           "<kml/>" (FileNotFoundError "/usr/bin/ogr2ogr")).
  - reflexivity.
  - reflexivity.
  - reflexivity.
  - reflexivity.
  - reflexivity.
  - reflexivity.
Defined.

(** ** Features that are no list *)

Lemma built_first_fails E layer_uuid k item items e :
  feature_name item = Exc e -> built E layer_uuid k (item :: items) = Exc e.
Proof. intros H. simpl. by rewrite H. Qed.

(** X6: When the [features] of the loaded document are a non-empty object
    or a non-empty string, the loop visits keys or characters, which
    are strings: the lookup of [properties] on the first of them raises
    [TypeError] after the layer was replaced, and no geo-object is
    inserted. *)
Theorem features_not_a_list {R} E self guide update clear w w1 text json_data features :
  fetch_block E self guide update w = (w1, Normal tt) ->
  loaded E self guide w1 text json_data features ->
  (exists k v o, features = JObj ((k, v) :: o))
  \/ (exists c s, features = JStr (String c s)) ->
  exists w' msg,
    _update_guide (R:=R) E self guide update clear w = (w', Raised (TypeError msg))
    /\ layers (w_store w') = layers (w_store (replaced E guide clear w1))
    /\ (forall d, d ∈ geoobjects (w_store w') -> d ∈ geoobjects (w_store w)).
Proof.
  intros Hfetch (Hfile & Hjson & Hfeat) Hshape.
  assert (exists n item items,
            py_len features = Val (S n) /\ py_iter features = Val (JStr item :: items))
    as (n & item & items & Hlen & Hiter).
  { destruct Hshape as [(k & v & o & ->)|(c & s & ->)]; simpl; eauto. }
  rewrite _update_guide_run, Hfetch, import_block_run, Hfile, Hjson, Hfeat, Hlen.
  rewrite (insert_block_run E _ _ _ _ _ Hfeat Hiter).
  rewrite (built_first_fails E _ _ (JStr item) items
             (TypeError "string indices must be integers") eq_refl).
  eexists _, _. split; [reflexivity|].
  destruct (built_world_store (JStr item :: items) (replaced E guide clear w1)) as [Hs _].
  rewrite Hs. split; [reflexivity|].
  intros d Hd. apply replaced_geoobjects in Hd.
  destruct (fetch_block_store E self guide update w) as [Hs' _].
  rewrite Hfetch in Hs'. simpl in Hs'. by rewrite <- Hs'.
Qed.

Lemma features_not_a_list_witness :
  exists w' msg,
    _update_guide (R:=unit) env_keyed self_0 "skipperguide_german" false true world_keyed
    = (w', Raised (TypeError msg))
    /\ layers (w_store w')
       = layers (w_store (replaced env_keyed "skipperguide_german" true world_keyed))
    /\ (forall d, d ∈ geoobjects (w_store w') -> d ∈ geoobjects (w_store world_keyed)).
Proof.
  apply (features_not_a_list env_keyed self_0 "skipperguide_german" false true
           world_keyed world_keyed "<collection: keyed>"
           (JObj [("type", JStr "FeatureCollection");
                  ("features", JObj [("Kiel", feature_Kiel)])])
           (JObj [("Kiel", feature_Kiel)])).
  - reflexivity.
  - repeat split.
  - left. by eexists _, _, _.
Defined.

(** ** An update from the cache *)

Lemma replaced_files E guide clear w :
  w_files (replaced E guide clear w) = w_files w.
Proof.
  unfold replaced, with_new_layer. destruct (found_layer guide w); destruct clear; done.
Qed.

(** The import block leaves the cache as it is. *)
Lemma import_block_files E self guide clear w :
  w_files (import_block E self guide clear w).1 = w_files w.
Proof.
  rewrite import_block_run.
  destruct (w_files w !! geojson_filename self guide) as [text|]; [|done].
  destruct (json_loads E text) as [jd|]; [|done].
  destruct (py_getitem jd "features") as [fs|] eqn:Hfeat; [|done].
  destruct (py_len fs) as [[|n]|] eqn:Hlen; [done| |done].
  destruct (py_len_iter _ _ Hlen) as [items [Hiter _]].
  rewrite (insert_block_run E _ _ _ _ _ Hfeat Hiter).
  destruct (built_world_store items (replaced E guide clear w)) as [_ Hf].
  destruct (built E _ _ items); cbn [fst inserted w_files]; rewrite Hf;
    apply replaced_files.
Qed.

Section SameAnswers.

Context (E E' : env).
Hypothesis same_json : forall text, json_loads E text = json_loads E' text.
Hypothesis same_uuid : forall n, uuid_at E n = uuid_at E' n.
Hypothesis same_repr : forall v, py_repr E v = py_repr E' v.

Lemma py_str_same v : py_str E v = py_str E' v.
Proof. destruct v; simpl; auto. Qed.

Lemma built_same layer_uuid items : forall k,
  built E layer_uuid k items = built E' layer_uuid k items.
Proof.
  induction items as [|item items IH]; intros k; simpl; [done|].
  destruct (feature_name item); [|done]. by rewrite IH, same_uuid, py_str_same.
Qed.

Lemma replaced_same guide clear w :
  replaced E guide clear w = replaced E' guide clear w
  /\ replace_uuid E guide clear w = replace_uuid E' guide clear w.
Proof.
  unfold replaced, replace_uuid, with_new_layer. by rewrite !same_uuid.
Qed.

Lemma import_block_same self self' guide clear w :
  cache_path self' = cache_path self ->
  import_block E self guide clear w = import_block E' self' guide clear w.
Proof.
  intros Hcp.
  assert (geojson_filename self' guide = geojson_filename self guide) as Hname
    by (unfold geojson_filename; by rewrite Hcp).
  rewrite !import_block_run, Hname.
  destruct (w_files w !! geojson_filename self guide) as [text|]; [|done].
  rewrite <- same_json.
  destruct (json_loads E text) as [jd|]; [|done].
  destruct (py_getitem jd "features") as [fs|] eqn:Hfeat; [|done].
  destruct (py_len fs) as [[|n]|] eqn:Hlen; [done| |done].
  destruct (py_len_iter _ _ Hlen) as [items [Hiter _]].
  rewrite (insert_block_run E _ _ _ _ _ Hfeat Hiter).
  rewrite (insert_block_run E' _ _ _ _ _ Hfeat Hiter).
  destruct (replaced_same guide clear w) as [-> ->]. by rewrite built_same.
Qed.

End SameAnswers.

(** X7: An update triggered by the [update_guide] event for a guide whose
    GeoJSON file is cached stays off the network, the registry and the
    tool: its outcome is the same for two components with the same
    cache path, whatever their registries and tool paths, in two
    environments that agree on [json.loads], [std_uuid] and [repr],
    whatever the remote site, the file system and the tool do in them;
    and the cache is as before. *)
Theorem cached_update_is_offline {R} E E' self self' event w :
  is_Some (w_files w !! geojson_filename self (data event)) ->
  cache_path self' = cache_path self ->
  (forall text, json_loads E text = json_loads E' text) ->
  (forall n, uuid_at E n = uuid_at E' n) ->
  (forall v, py_repr E v = py_repr E' v) ->
  update_guide (R:=R) E self event w = update_guide (R:=R) E' self' event w
  /\ w_files (update_guide (R:=R) E self event w).1 = w_files w.
Proof.
  intros Hcached Hcp Hjson Huuid Hrepr.
  assert (geojson_filename self' (data event) = geojson_filename self (data event))
    as Hname by (unfold geojson_filename; by rewrite Hcp).
  assert (forall E0 self0,
            geojson_filename self0 (data event) = geojson_filename self (data event) ->
            _update_guide (R:=unit) E0 self0 (data event) false true w
            = match import_block E0 self0 (data event) true w with
              | (w2, Raised e) => (w2, Raised e)
              | (w2, _) => (w2, Normal tt)
              end) as Hrun.
  { intros E0 self0 Hname0. rewrite _update_guide_run, fetch_block_skipped; [done|].
    apply fetch_needed_false. by rewrite Hname0. }
  unfold update_guide, call. rewrite (Hrun E self eq_refl), (Hrun E' self' Hname).
  rewrite <- (import_block_same E E' Hjson Huuid Hrepr self self' _ _ _ Hcp).
  split; [reflexivity|].
  pose proof (import_block_files E self (data event) true w) as Hfiles.
  destruct (import_block E self (data event) true w) as [w2 [[]|e|[]]]; exact Hfiles.
Qed.

Lemma cached_update_is_offline_witness :
  update_guide (R:=unit) env_offline self_0 {| data := "skipperguide_german" |} world_Kiel
  = update_guide (R:=unit) env_no_tool
      {| translate_binary := "/bin/false"; cache_path := cache_path self_0; guides := [] |}
      {| data := "skipperguide_german" |} world_Kiel
  /\ w_files (update_guide (R:=unit) env_offline self_0 {| data := "skipperguide_german" |}
                world_Kiel).1
     = w_files world_Kiel.
Proof.
  apply (cached_update_is_offline env_offline env_no_tool self_0
           {| translate_binary := "/bin/false"; cache_path := cache_path self_0;
              guides := [] |}
           {| data := "skipperguide_german" |} world_Kiel).
  - eexists. reflexivity.
  - reflexivity.
  - reflexivity.
  - reflexivity.
  - reflexivity.
Defined.

(** ** Keeping the existing layer *)

(** What the import block does to the store without [clear]. *)
Lemma import_block_kept E self guide w :
  let run := import_block E self guide false w in
  exists locations,
    geoobjects (w_store run.1)
    = (geoobjects (w_store w)
       ++ with_ids (next_id (w_store (replaced E guide false w))) locations)%list
    /\ Forall (fun g => geo_layer g = replace_uuid E guide false w) locations
    /\ (layers (w_store run.1) = layers (w_store w)
        \/ layers (w_store run.1) = layers (w_store (replaced E guide false w))).
Proof.
  intros run. subst run. rewrite import_block_run.
  assert (forall w' (o : outcome unit unit), w_store w' = w_store w ->
            exists locations,
              geoobjects (w_store (w', o).1)
              = (geoobjects (w_store w)
                 ++ with_ids (next_id (w_store (replaced E guide false w))) locations)%list
              /\ Forall (fun g => geo_layer g = replace_uuid E guide false w) locations
              /\ (layers (w_store (w', o).1) = layers (w_store w)
                  \/ layers (w_store (w', o).1)
                     = layers (w_store (replaced E guide false w)))) as Hsame.
  { intros w' o Hs. exists []. cbn [fst with_ids]. rewrite Hs, app_nil_r. auto. }
  destruct (w_files w !! geojson_filename self guide) as [text|]; [|by apply Hsame].
  destruct (json_loads E text) as [jd|]; [|by apply Hsame].
  destruct (py_getitem jd "features") as [fs|] eqn:Hfeat; [|by apply Hsame].
  destruct (py_len fs) as [[|n]|] eqn:Hlen; [by apply Hsame| |by apply Hsame].
  destruct (py_len_iter _ _ Hlen) as [items [Hiter _]].
  rewrite (insert_block_run E _ _ _ _ _ Hfeat Hiter).
  destruct (built_world_store items (replaced E guide false w)) as [Hs _].
  assert (geoobjects (w_store (replaced E guide false w)) = geoobjects (w_store w)) as Hg.
  { unfold replaced, with_new_layer. by destruct (found_layer guide w). }
  destruct (built E _ _ items) as [locs|e] eqn:Hbuilt; cbn [fst inserted w_store].
  - exists locs. rewrite Hs, Hg. cbn [geoobjects layers].
    split; [reflexivity|]. split; [by eapply built_layer|]. by right.
  - exists []. rewrite Hs, Hg. cbn [with_ids]. rewrite app_nil_r.
    split; [reflexivity|]. split; [constructor|]. by right.
Qed.

(** X8: Without [clear] nothing is deleted: the layers and the geo-objects
    of the store before the call are still there after it, in their
    places, whatever the outcome of the call. *)
Theorem keep_existing_deletes_nothing {R} E self guide update w :
  let run := _update_guide (R:=R) E self guide update false w in
  layers (w_store w) `prefix_of` layers (w_store run.1)
  /\ geoobjects (w_store w) `prefix_of` geoobjects (w_store run.1).
Proof.
  intros run. subst run. rewrite _update_guide_run.
  destruct (fetch_block_store E self guide update w) as [Hstore _].
  destruct (fetch_block E self guide update w) as [w1 [[]|e|[]]]; cbn [fst] in Hstore;
    [|cbn [fst]; by rewrite Hstore|cbn [fst]; by rewrite Hstore].
  destruct (import_block_kept E self guide w1) as (locs & Hgeo & _ & Hlayers).
  cbv zeta in Hgeo, Hlayers. rewrite <- Hstore.
  destruct (import_block E self guide false w1) as [w2 [[]|e|[]]]; cbn [fst] in *;
    (split; [|rewrite Hgeo; by apply prefix_app_r]);
    (destruct Hlayers as [->| ->]; [done|]);
    unfold replaced, with_new_layer; destruct (found_layer guide w1); cbn [w_store layers];
    try done; by apply prefix_app_r.
Qed.

(** X9: Without [clear] and with a layer of the name in the store, the
    layer is reused: the layers are as before the call, and the
    geo-objects are those from before followed by new ones that all
    reference the identifier of that layer. *)
Theorem keep_existing_appends {R} E self guide update w l :
  found_layer guide w = Some l ->
  let run := _update_guide (R:=R) E self guide update false w in
  layers (w_store run.1) = layers (w_store w)
  /\ exists added,
       geoobjects (w_store run.1) = (geoobjects (w_store w) ++ added)%list
       /\ Forall (fun d : nat * geoobject => geo_layer d.2 = lyr_uuid l.2) added.
Proof.
  intros Hfound run. subst run. rewrite _update_guide_run.
  destruct (fetch_block_store E self guide update w) as [Hstore _].
  assert (forall w' (o : outcome R unit), w_store w' = w_store w ->
            layers (w_store (w', o).1) = layers (w_store w)
            /\ exists added,
                 geoobjects (w_store (w', o).1) = (geoobjects (w_store w) ++ added)%list
                 /\ Forall (fun d : nat * geoobject => geo_layer d.2 = lyr_uuid l.2) added)
    as Hsame.
  { intros w' o Hs. cbn [fst]. rewrite Hs. split; [done|]. exists [].
    by rewrite app_nil_r. }
  destruct (fetch_block E self guide update w) as [w1 [[]|e|[]]]; cbn [fst] in Hstore;
    [|by apply Hsame|by apply Hsame].
  assert (found_layer guide w1 = Some l) as Hfound1
    by (unfold found_layer in *; by rewrite Hstore).
  destruct (import_block_kept E self guide w1) as (locs & Hgeo & Hall & Hlayers).
  cbv zeta in Hgeo, Hlayers.
  assert (replaced E guide false w1 = w1) as Hrep
    by (unfold replaced; by rewrite Hfound1).
  assert (replace_uuid E guide false w1 = lyr_uuid l.2) as Huuid
    by (unfold replace_uuid; by rewrite Hfound1).
  rewrite Hrep in Hgeo, Hlayers. rewrite Huuid in Hall. rewrite Hstore in Hgeo, Hlayers.
  assert (forall (o : outcome R unit),
            layers (w_store ((import_block E self guide false w1).1, o).1)
            = layers (w_store w)
            /\ exists added,
                 geoobjects (w_store ((import_block E self guide false w1).1, o).1)
                 = (geoobjects (w_store w) ++ added)%list
                 /\ Forall (fun d : nat * geoobject => geo_layer d.2 = lyr_uuid l.2) added)
    as Hdone.
  { intros o. cbn [fst]. split; [by destruct Hlayers|].
    eexists. split; [exact Hgeo|]. by apply with_ids_layer. }
  destruct (import_block E self guide false w1) as [w2 [[]|e|[]]]; apply Hdone.
Qed.

Lemma keep_existing_appends_witness :
  let run := _update_guide (R:=unit) env_ok self_0 "skipperguide_german" false false
                           world_Kiel in
  layers (w_store run.1) = layers (w_store world_Kiel)
  /\ exists added,
       geoobjects (w_store run.1) = (geoobjects (w_store world_Kiel) ++ added)%list
       /\ Forall (fun d : nat * geoobject =>
                    geo_layer d.2
                    = lyr_uuid (0, Layer "uuid-0" "skipperguide_german" "geoobjects").2)
                 added.
Proof.
  apply (keep_existing_appends env_ok self_0 "skipperguide_german" false world_Kiel
           (0, Layer "uuid-0" "skipperguide_german" "geoobjects")).
  reflexivity.
Defined.

(** ** What a completed update inserts *)

Lemma built_content E layer_uuid items : forall k locations,
  built E layer_uuid k items = Val locations ->
  Forall2 (fun g item =>
             geo_geojson g = item
             /\ geo_type g = "Skipperguide"
             /\ exists name, feature_name item = Val name
                             /\ geo_name g = "Guide for " +:+ py_str E name)
          locations items.
Proof.
  induction items as [|item items IH]; intros k locs H; simpl in H.
  - inversion H. constructor.
  - destruct (feature_name item) as [name|] eqn:Hname; [|done].
    destruct (built E layer_uuid (S k) items) as [l|] eqn:Hb; [|done].
    inversion H; subst. constructor; [|by eapply IH].
    simpl. split; [done|]. split; [done|]. by exists name.
Qed.



(** An update with the default arguments that returned and changed the
    store was completed. *)
Lemma default_completed {R} E self guide w :
  let run := _update_guide (R:=R) E self guide false true w in
  run.2 = Normal tt ->
  w_store run.1 ≠ w_store w ->
  exists w1 items locations,
    w_store w1 = w_store w
    /\ w_uuids w1 = w_uuids w
    /\ cached_features E self guide run.1 = Some items
    /\ built E (uuid_at E (w_uuids w1)) (S (w_uuids w1)) items = Val locations
    /\ run.1 = completed E guide items locations w1.
Proof.
  intros run Hret Hchanged.
  destruct (_update_guide_default_cases (R:=R) E self guide w)
    as (w1 & Hstore & Huuids & Hcases).
  fold run in Hcases.
  destruct Hcases as [(e & Hrun)|[(url & e & _ & _ & _ & _ & _ & Hrun)|
    [(text & jd & fs & _ & _ & Hrun)|
     [(text & jd & fs & n & items & e & _ & _ & _ & _ & Hrun)|
      (text & jd & fs & n & items & locs & Hload & Hlen & Hiter & Hbuilt & Hrun)]]]];
    rewrite Hrun in Hret, Hchanged; cbn [fst snd] in Hret, Hchanged; try done.
  exists w1, items, locs. rewrite Hrun. cbn [fst]. repeat split; try done.
  eapply cached_features_loaded; [exact Hload|exact Hiter|].
  by destruct (completed_frame E guide items locs w1) as (-> & _).
Qed.

(** X10: The records of a completed update: the layer of the guide has the
    type [geoobjects], and the geo-objects referencing it are one per
    feature of the cached collection, in its order, each carrying the
    feature as it was parsed, the type [Skipperguide] and the name
    [Guide for] followed by the text of the feature's [Name]. *)
Theorem inserted_records_content {R} E self guide w :
  length (layers_named guide (w_store w)) <= 1 ->
  let run := _update_guide (R:=R) E self guide false true w in
  run.2 = Normal tt ->
  w_store run.1 ≠ w_store w ->
  exists l items,
    layers_named guide (w_store run.1) = [l]
    /\ lyr_type l.2 = "geoobjects"
    /\ cached_features E self guide run.1 = Some items
    /\ Forall2 (fun g item =>
                  geo_geojson g = item
                  /\ geo_type g = "Skipperguide"
                  /\ exists name, feature_name item = Val name
                                  /\ geo_name g = "Guide for " +:+ py_str E name)
               ((referencing (lyr_uuid l.2) (w_store run.1)).*2) items.
Proof.
  intros Hone run Hret Hchanged.
  destruct (default_completed (R:=R) E self guide w Hret Hchanged)
    as (w1 & items & locs & Hstore & Huuids & Hcached & Hbuilt & Hrun).
  fold run in Hcached, Hrun. rewrite Hrun in *.
  exists (next_id (w_store w1), Layer (uuid_at E (w_uuids w1)) guide "geoobjects"), items.
  split; [apply completed_layers_named; by rewrite Hstore|].
  split; [reflexivity|]. split; [exact Hcached|].
  cbn [snd lyr_uuid].
  rewrite (completed_referencing E guide _ _ _ _ Hbuilt), with_ids_snd.
  by eapply built_content.
Qed.

Lemma inserted_records_content_witness :
  let run := _update_guide (R:=unit) env_ok self_0 "skipperguide_german" false true
                           world_fresh in
  exists l items,
    layers_named "skipperguide_german" (w_store run.1) = [l]
    /\ lyr_type l.2 = "geoobjects"
    /\ cached_features env_ok self_0 "skipperguide_german" run.1 = Some items
    /\ Forall2 (fun g item =>
                  geo_geojson g = item
                  /\ geo_type g = "Skipperguide"
                  /\ exists name, feature_name item = Val name
                                  /\ geo_name g = "Guide for " +:+ py_str env_ok name)
               ((referencing (lyr_uuid l.2) (w_store run.1)).*2) items.
Proof.
  apply (inserted_records_content env_ok self_0 "skipperguide_german" world_fresh).
  - vm_compute. lia.
  - vm_compute. reflexivity.
  - intros H. apply (f_equal next_id) in H. vm_compute in H. discriminate H.
Defined.



(** ** What an update leaves alone *)

Lemma deleted_none_found uuid gs :
  Forall (fun d : nat * geoobject => geo_layer d.2 ≠ uuid) gs ->
  deleted (filter (fun d => geo_layer d.2 = uuid) gs) gs = gs.
Proof. intros H. by rewrite filter_none. Qed.

Lemma replaced_geoobjects_fresh E guide w :
  Forall (fun d : nat * geoobject => geo_layer d.2 ≠ uuid_at E (w_uuids w))
         (geoobjects (w_store w)) ->
  geoobjects (w_store (replaced E guide true w)) = geoobjects (w_store w).
Proof.
  intros Hfresh. unfold replaced, with_new_layer.
  destruct (found_layer guide w); cbn [w_store geoobjects]; by apply deleted_none_found.
Qed.

(** X12: When no geo-object of the store references the identifier that the
    next call of [std_uuid] gives, an update with the default arguments
    deletes no geo-object: the collection before the call is the
    beginning of the collection after it, whatever the outcome. *)
Theorem update_keeps_geoobjects {R} E self guide w :
  Forall (fun d : nat * geoobject => geo_layer d.2 ≠ uuid_at E (w_uuids w))
         (geoobjects (w_store w)) ->
  geoobjects (w_store w)
  `prefix_of` geoobjects (w_store (_update_guide (R:=R) E self guide false true w).1).
Proof.
  intros Hfresh.
  destruct (_update_guide_default_cases (R:=R) E self guide w)
    as (w1 & Hstore & Huuids & Hcases). cbv zeta in Hcases.
  rewrite <- Hstore, <- Huuids in Hfresh.
  destruct Hcases as [(e & ->)|[(url & e & _ & _ & _ & _ & _ & ->)|
    [(text & jd & fs & _ & _ & ->)|
     [(text & jd & fs & n & items & e & _ & _ & _ & _ & ->)|
      (text & jd & fs & n & items & locs & _ & _ & _ & _ & ->)]]]];
    cbn [fst].
  - by rewrite Hstore.
  - done.
  - cbn [add_log w_store]. by rewrite Hstore.
  - destruct (built_world_store items (replaced E guide true w1)) as [-> _].
    rewrite (replaced_geoobjects_fresh E guide w1 Hfresh). by rewrite Hstore.
  - unfold completed, inserted. cbn [w_store geoobjects].
    destruct (built_world_store items (replaced E guide true w1)) as [-> _].
    rewrite (replaced_geoobjects_fresh E guide w1 Hfresh), Hstore.
    by apply prefix_app_r.
Qed.

Lemma update_keeps_geoobjects_witness :
  geoobjects (w_store world_two_guides)
  `prefix_of` geoobjects (w_store (_update_guide (R:=unit) env_ok self_0
                                     "skipperguide_german" false true world_two_guides).1).
Proof.
  apply (update_keeps_geoobjects env_ok self_0 "skipperguide_german" world_two_guides).
  vm_compute. repeat constructor; discriminate.
Defined.

Lemma NoDup_keys_inj {A} (ds : list (nat * A)) d d' :
  NoDup ds.*1 -> d ∈ ds -> d' ∈ ds -> d.1 = d'.1 -> d = d'.
Proof.
  induction ds as [|x ds IH]; intros Hnodup Hd Hd' Hkey; [inversion Hd|].
  rewrite fmap_cons in Hnodup. apply NoDup_cons in Hnodup as [Hx Hnodup].
  apply elem_of_cons in Hd as [->|Hd]; apply elem_of_cons in Hd' as [->|Hd'].
  - reflexivity.
  - exfalso. apply Hx. rewrite Hkey. by apply list_elem_of_fmap_2.
  - exfalso. apply Hx. rewrite <- Hkey. by apply list_elem_of_fmap_2.
  - by apply IH.
Qed.

Lemma filter_filter_keep {A} (P Q : A -> Prop)
    `{forall x, Decision (P x)} `{forall x, Decision (Q x)} (xs : list A) :
  (forall x, x ∈ xs -> P x -> Q x) -> filter P (filter Q xs) = filter P xs.
Proof.
  induction xs as [|x xs IH]; intros Himp; [done|].
  assert (filter P (filter Q xs) = filter P xs) as IH'
    by (apply IH; intros y Hy; apply Himp; by apply elem_of_cons; right).
  destruct (decide (P x)) as [Hp|Hp].
  - rewrite (filter_cons_True Q) by (apply Himp; [by apply elem_of_cons; left|done]).
    rewrite !filter_cons_True by done. by rewrite IH'.
  - destruct (decide (Q x)).
    + rewrite (filter_cons_True Q) by done. rewrite !filter_cons_False by done. exact IH'.
    + rewrite (filter_cons_False Q) by done. rewrite filter_cons_False by done. exact IH'.
Qed.

Lemma replaced_other_layers E guide name w :
  NoDup (layers (w_store w)).*1 ->
  name ≠ guide ->
  layers_named name (w_store (replaced E guide true w)) = layers_named name (w_store w).
Proof.
  intros Hnodup Hname. unfold replaced, with_new_layer, layers_named.
  destruct (found_layer guide w) as [l|] eqn:Hfound; cbn [w_store layers];
    rewrite filter_app, (filter_cons_False _ (_, Layer _ guide _)) by (simpl; congruence);
    rewrite filter_nil, app_nil_r; [|done].
  apply filter_filter_keep. intros d Hd Hdname Hkey.
  apply List.find_some in Hfound as [Hl Hlname].
  apply list_elem_of_In in Hl. apply String.eqb_eq in Hlname.
  assert (d = l) as -> by (by eapply NoDup_keys_inj).
  congruence.
Qed.

(** X13: With distinct keys in the layer collection, an update with the
    default arguments leaves the layers of every other name as they
    are, whatever its outcome. *)
Theorem update_keeps_other_layers {R} E self guide name w :
  NoDup (layers (w_store w)).*1 ->
  name ≠ guide ->
  layers_named name (w_store (_update_guide (R:=R) E self guide false true w).1)
  = layers_named name (w_store w).
Proof.
  intros Hnodup Hname.
  destruct (_update_guide_default_cases (R:=R) E self guide w)
    as (w1 & Hstore & Huuids & Hcases). cbv zeta in Hcases.
  rewrite <- Hstore in Hnodup.
  destruct Hcases as [(e & ->)|[(url & e & _ & _ & _ & _ & _ & ->)|
    [(text & jd & fs & _ & _ & ->)|
     [(text & jd & fs & n & items & e & _ & _ & _ & _ & ->)|
      (text & jd & fs & n & items & locs & _ & _ & _ & _ & ->)]]]];
    cbn [fst].
  - by rewrite Hstore.
  - done.
  - cbn [add_log w_store]. by rewrite Hstore.
  - destruct (built_world_store items (replaced E guide true w1)) as [-> _].
    rewrite (replaced_other_layers E guide name w1 Hnodup Hname). by rewrite Hstore.
  - unfold layers_named at 1.
    destruct (completed_frame E guide items locs w1) as (_ & _ & ->).
    fold (layers_named name (w_store (replaced E guide true w1))).
    rewrite (replaced_other_layers E guide name w1 Hnodup Hname). by rewrite Hstore.
Qed.

Lemma update_keeps_other_layers_witness :
  layers_named "harbours"
    (w_store (_update_guide (R:=unit) env_ok self_0 "skipperguide_german" false true
                            world_two_guides).1)
  = layers_named "harbours" (w_store world_two_guides).
Proof.
  apply (update_keeps_other_layers env_ok self_0 "skipperguide_german" "harbours"
           world_two_guides).
  - vm_compute. repeat constructor; intros H; inversion H; subst;
      repeat match goal with H' : _ ∈ _ |- _ => inversion H'; clear H' end.
  - discriminate.
Defined.

(** ** All guides while the sites are down *)

Lemma offline_loop E self (entries : list (string * string)) : forall w,
  (forall g url, (g, url) ∈ entries -> dict_get (guides self) g = Some url) ->
  Forall (fun kv => w_files w !! geojson_filename self kv.1 = None
                    /\ fetch_unavailable E kv.2 = true) entries ->
  exists warnings,
    for_each (dict_keys entries)
             (fun guide => _update_guide (R:=unit) E self guide false true) w
    = (World (w_files w) (w_store w) (w_uuids w) (w_log w ++ warnings), Normal tt)
    /\ length warnings = length entries
    /\ Forall (fun le => le_lvl le = warn) warnings.
Proof.
  induction entries as [|[g url] entries IH]; intros w Hget Hall.
  - exists []. rewrite app_nil_r. by destruct w.
  - inversion Hall as [|? ? [Hfile Hdown] Hrest]; subst. cbn [fst snd] in Hfile, Hdown.
    unfold fetch_unavailable in Hdown.
    destruct (urlopen_read_decode E url) as [|e] eqn:Hu; [discriminate Hdown|].
    assert (_update_guide (R:=unit) E self g false true w
            = (add_log (fetch_warning e) w, Normal tt)) as Hrun.
    { rewrite _update_guide_run.
      rewrite (fetch_block_fetch_error E self g false w url e); [by rewrite Hdown| | |done].
      - apply fetch_needed_true. by left.
      - apply Hget. by apply elem_of_cons; left. }
    destruct (IH (add_log (fetch_warning e) w)) as (warnings & Hloop & Hlen & Hwarn).
    { intros g' url' Hin. apply Hget. by apply elem_of_cons; right. }
    { exact Hrest. }
    exists (fetch_warning e :: warnings).
    unfold dict_keys in *. rewrite fmap_cons. cbn [fst for_each].
    unfold bind at 1. rewrite Hrun, Hloop. cbn [add_log w_files w_store w_uuids w_log].
    rewrite <- app_assoc. split; [reflexivity|]. split; [simpl; by rewrite Hlen|].
    by constructor.
Qed.

Lemma dict_get_first {A} (d : list (string * A)) :
  NoDup d.*1 -> forall k v, (k, v) ∈ d -> dict_get d k = Some v.
Proof.
  induction d as [|[k' v'] d IH]; intros Hnodup k v Hin; [inversion Hin|].
  rewrite fmap_cons in Hnodup. apply NoDup_cons in Hnodup as [Hk' Hnodup]. simpl.
  apply elem_of_cons in Hin as [Heq|Hin].
  - inversion Heq; subst. by rewrite String.eqb_refl.
  - destruct (String.eqb_spec k' k) as [->|_]; [|by apply IH].
    exfalso. apply Hk'. by apply (list_elem_of_fmap_2 fst _ (k, v)).
Qed.

(** X14: When no guide of the registry has a cached GeoJSON file and every
    fetch ends in [URLError] or [HTTPError], the [update_all] event
    returns with store, cache and identifier supply as they were, and
    with one more warning in the log for each guide of the registry. *)
Theorem update_all_offline {R} E self event w :
  NoDup (dict_keys (guides self)) ->
  Forall (fun kv => w_files w !! geojson_filename self kv.1 = None
                    /\ fetch_unavailable E kv.2 = true) (guides self) ->
  exists warnings,
    update_all (R:=R) E self event w
    = (World (w_files w) (w_store w) (w_uuids w) (w_log w ++ warnings), Normal tt)
    /\ length warnings = length (guides self)
    /\ Forall (fun le => le_lvl le = warn) warnings.
Proof.
  intros Hnodup Hall.
  destruct (offline_loop E self (guides self) w (dict_get_first _ Hnodup) Hall)
    as (warnings & Hloop & Hlen & Hwarn).
  exists warnings. split; [|done].
  unfold update_all, _update_guides, call. by rewrite Hloop.
Qed.

Lemma update_all_offline_witness :
  exists warnings,
    update_all (R:=unit) env_offline self_0 {| data := "" |} world_fresh
    = (World (w_files world_fresh) (w_store world_fresh) (w_uuids world_fresh)
             (w_log world_fresh ++ warnings), Normal tt)
    /\ length warnings = length (guides self_0)
    /\ Forall (fun le => le_lvl le = warn) warnings.
Proof.
  apply (update_all_offline env_offline self_0 {| data := "" |} world_fresh).
  - vm_compute. repeat constructor; intros H; inversion H.
  - repeat constructor.
Defined.
